(** * Mijn PWN: the API client, its authenticator and the poll cycle

    A shallow embedding of [custom_components/mijn_pwn/api.py],
    [auth.py], [const.py], of the coordinator in [coordinator.py], of
    [authenticate] in [__init__.py] and of [is_on] in [binary_sensor.py].

    The Python code is asynchronous but strictly sequential: every
    [await] is a point where the remote side answers.  The remote
    side is a function from the history of the session to the outcome
    of the next request, the authenticator object shared by the client
    is a field of the state, and every request, every answer and every
    call of the logger is appended to a trace.

    Time is not part of the model.  A request that is not answered
    before the timer that is running expires is a request whose outcome
    is [TimeoutError]; all timers of the code run [API_TIMEOUT] seconds,
    so of two nested timers the outer one, which started first, is the
    one that expires. *)

From Stdlib Require Import ZArith Lia.
From stdpp Require Import base strings list gmap.

Local Open Scope string_scope.
Local Open Scope Z_scope.
Set Warnings "-register-all".

(** ** Values *)

(** What [response.json()] yields, and what the attributes of the
    authenticator hold.  [JNull] is Python's [None].  Numbers are the
    integers: floating-point numbers are left out. *)
Inductive json : Type :=
  | JNull
  | JBool (b : bool)
  | JInt (z : Z)
  | JStr (s : string)
  | JArr (l : list json)
  | JObj (d : list (string * json)).

(** Python's [bool(x)], which is what [not x] and [if x] test. *)
Definition truthy (v : json) : bool :=
  match v with
  | JNull => false
  | JBool b => b
  | JInt z => negb (z =? 0)
  | JStr s => negb (String.eqb s "")
  | JArr l => match l with [] => false | _ => true end
  | JObj d => match d with [] => false | _ => true end
  end.

(** [x is None] *)
Definition is_None (v : json) : bool :=
  match v with JNull => true | _ => false end.

(** The binding of a key in a parsed object. *)
Fixpoint dict_get (d : list (string * json)) (k : string) : option json :=
  match d with
  | [] => None
  | (k', v) :: d' => if String.eqb k k' then Some v else dict_get d' k
  end.

(** [d.get(k)] on a dictionary: the value, or [None]. *)
Definition get_or_None (d : list (string * json)) (k : string) : json :=
  match dict_get d k with
  | Some v => v
  | None => JNull
  end.

(** A request target: a catalog URL, or the f-string
    [f"{base}/{customer_id}"] with the formatted value kept as it is. *)
Inductive url : Type :=
  | Url (s : string)
  | UrlSlash (base : string) (v : json).

(** ** Exceptions *)

(** The subclasses of [Exception] the code raises, catches or can be
    handed by the libraries it calls.  [UpdateFailed] carries the status
    of its message [f"Error communicating with API: {status}"]; the three
    wrapping classes carry the exception they were raised [from].  Every
    instance of [asyncio.TimeoutError] is [TimeoutError]: each handler
    list of the code tests that class first.  Exceptions outside
    [Exception] (a cancelled task) are not part of the model. *)
Inductive exn : Type :=
  | TimeoutError
  | ClientError
  | RequestException
  | AttributeError
  | KeyError (k : string)
  | UnboundLocalError (name : string)
  | OtherException (name : string)
  | UpdateFailed (status : Z)
  | ConfigEntryAuthFailed (cause : exn)
  | PWNAPIError (cause : exn)
  | PWNAPICommunicationError (cause : exn)
  | PWNAPIAuthenticationError.

(** [isinstance(e, asyncio.TimeoutError)] *)
Definition is_TimeoutError (e : exn) : bool :=
  match e with TimeoutError => true | _ => false end.

(** [isinstance(e, aiohttp.ClientError)] *)
Definition is_ClientError (e : exn) : bool :=
  match e with ClientError => true | _ => false end.

(** [isinstance(e, requests.exceptions.RequestException)] *)
Definition is_RequestException (e : exn) : bool :=
  match e with RequestException => true | _ => false end.

(** [isinstance(e, PWNAPIAuthenticationError)] *)
Definition is_PWNAPIAuthenticationError (e : exn) : bool :=
  match e with PWNAPIAuthenticationError => true | _ => false end.


(** [isinstance(e, PWNAPIError)]: the base class and its two subclasses. *)
Definition is_PWNAPIError (e : exn) : bool :=
  match e with
  | PWNAPIError _ | PWNAPICommunicationError _ | PWNAPIAuthenticationError => true
  | _ => false
  end.

(** The outcome of a call: a value, or a raised exception. *)
Inductive res (A : Type) : Type :=
  | Return (a : A)
  | Raise (e : exn).
Arguments Return {A} a.
Arguments Raise {A} e.

(** ** The session: requests, answers, log *)

Inductive request : Type :=
  | POST (u : string) (payload : list (string * json))
  | GET (u : url) (bearer : json).  (* header [f"Bearer {access_token}"] *)

(** An answer: its status, and what [await response.json()] does. *)
Record response : Type := mkResponse {
  status : Z;
  json_body : res json
}.

(** A request is answered, or the call raises: a client error, or
    [TimeoutError] when no answer comes in time. *)
Inductive outcome : Type :=
  | Responds (r : response)
  | Fails (e : exn).

Inductive level : Type := DEBUG | INFO | WARNING | ERROR.

Inductive logarg : Type :=
  | LStr (s : string)
  | LUrl (u : url)
  | LInt (z : Z)
  | LExn (e : exn)
  | LJson (v : json).

Inductive event : Type :=
  | Exchange (r : request) (o : outcome)
  | Log (lv : level) (fmt : string) (args : list logarg).

(** The remote side: the history so far decides the next outcome. *)
Definition server : Type := list event -> request -> outcome.

(** [PWNAuth] of api.py. *)
Record PWNAuth : Type := mkPWNAuth {
  username : string;
  password : string;
  access_token : json;
  refresh_token : json
}.

(** [PWNAuth.__init__] *)
Definition PWNAuth_init (user pass : string) : PWNAuth :=
  {| username := user; password := pass;
     access_token := JNull; refresh_token := JNull |}.

(** The [PWNAPI] object: the authenticator it shares, and the session. *)
Record world : Type := mkWorld {
  auth : PWNAuth;
  trace : list event
}.

(** The requests of a trace with their outcomes, in order. *)
Definition exchanges (t : list event) : list (request * outcome) :=
  omap (fun ev => match ev with
                  | Exchange r o => Some (r, o)
                  | Log _ _ _ => None
                  end) t.

(** The exchange is a GET. *)
Definition is_get (x : request * outcome) : bool :=
  match fst x with GET _ _ => true | POST _ _ => false end.

(** What a call appended to the trace. *)
Definition since (w w' : world) : list event :=
  drop (length (trace w)) (trace w').

(** ** The monad of the client: state and exceptions *)

Definition M (A : Type) : Type := world -> res A * world.

Definition ret {A} (a : A) : M A := fun w => (Return a, w).

Definition raise {A} (e : exn) : M A := fun w => (Raise e, w).

Definition bind {A B} (c : M A) (k : A -> M B) : M B :=
  fun w => match c w with
           | (Return a, w') => k a w'
           | (Raise e, w') => (Raise e, w')
           end.

(** [try: c except Exception as e: h e] *)
Definition try_except {A} (c : M A) (h : exn -> M A) : M A :=
  fun w => match c w with
           | (Return a, w') => (Return a, w')
           | (Raise e, w') => h e w'
           end.

Notation "x <- c ;; k" := (bind c (fun x => k))
  (at level 100, c at next level, right associativity).
Notation "c ;;; k" := (bind c (fun _ => k))
  (at level 100, right associativity).

Definition lift {A} (r : res A) : M A := fun w => (r, w).

Definition get_auth : M PWNAuth := fun w => (Return (auth w), w).

Definition set_access_token (v : json) : M unit :=
  fun w => (Return tt,
            {| auth := {| username := username (auth w);
                          password := password (auth w);
                          access_token := v;
                          refresh_token := refresh_token (auth w) |};
               trace := trace w |}).

Definition set_refresh_token (v : json) : M unit :=
  fun w => (Return tt,
            {| auth := {| username := username (auth w);
                          password := password (auth w);
                          access_token := access_token (auth w);
                          refresh_token := v |};
               trace := trace w |}).

Definition emit (ev : event) : M unit :=
  fun w => (Return tt, {| auth := auth w; trace := trace w ++ [ev] |}).

(** [_LOGGER.debug/info/warning/error(fmt, *args)] *)
Definition log (lv : level) (fmt : string) (args : list logarg) : M unit :=
  emit (Log lv fmt args).

(** [v.get(k)]: only dictionaries have the method. *)
Definition py_get (v : json) (k : string) : M json :=
  match v with
  | JObj d => ret (get_or_None d k)
  | _ => raise AttributeError
  end.

(** [await response.json()] *)
Definition response_json (r : response) : M json := lift (json_body r).

(** [status in (401, 403)] *)
Definition unauthorized (st : Z) : bool := (st =? 401) || (st =? 403).

(** ** const.py *)

Definition API_URL : string := "https://mijn.pwn.nl".

Definition API_ENDPOINTS : gmap string string :=
  list_to_map
    [ ("login", API_URL +:+ "/api/auth/login");
      ("contact_preferences", API_URL +:+ "/api/Customer/contact-preferences");
      ("settings", API_URL +:+ "/assets/configs/mijn-pwn-nl/settings.json");
      ("takeover", API_URL +:+ "/api/Takeover?domain=2");
      ("invoices_summary", API_URL +:+ "/api/Invoices/summary");
      ("relation_data", API_URL +:+ "/api/Customer/relation-data");
      ("payment_info", API_URL +:+ "/api/PaymentInfo");
      ("advance", API_URL +:+ "/api/advance");
      ("notifications", API_URL +:+ "/api/Notifications");
      ("consumption_history",
       API_URL +:+ "/api/connection/consumption-history/dashboard") ].

(** [API_ENDPOINTS[name]]: a missing key raises [KeyError]. *)
Definition endpoint (name : string) : M string :=
  match API_ENDPOINTS !! name with
  | Some u => ret u
  | None => raise (KeyError name)
  end.


(** ** api.py *)

Section Client.

Variable net : server.

(** [session.post(url, json=payload)] and [session.get(url, headers=...)]
    up to the arrival of the answer. *)
Definition send (r : request) : M response :=
  fun w =>
    let o := net (trace w) r in
    let w' := {| auth := auth w; trace := trace w ++ [Exchange r o] |} in
    match o with
    | Responds resp => (Return resp, w')
    | Fails e => (Raise e, w')
    end.

(** [PWNAuth.login] *)
Definition login : M bool :=
  a <- get_auth ;;
  let payload := [("user", JStr (username a)); ("password", JStr (password a))] in
  try_except
    (u <- endpoint "login" ;;
     response <- send (POST u payload) ;;
     if status response =? 200 then
       tokens <- response_json response ;;
       at_ <- py_get tokens "accessToken" ;;
       set_access_token at_ ;;;
       rt <- py_get tokens "refreshToken" ;;
       set_refresh_token rt ;;;
       log INFO "Auth login successful" [] ;;;
       ret true
     else
       (if unauthorized (status response)
        then log ERROR "Invalid credentials" []
        else log ERROR "Failed to login. Status code: %s"
                 [LInt (status response)]) ;;;
       ret false)
    (fun e =>
       if is_TimeoutError e then
         log ERROR "Timeout occurred during login" [] ;;; ret false
       else if is_ClientError e then
         log ERROR "Client error occurred during login: %s" [LExn e] ;;;
         ret false
       else
         log ERROR "Unexpected error occurred during login: %s" [LExn e] ;;;
         ret false).

(** [PWNAuth.refresh_tokens].  Called on its own ([enclosed] is false),
    the timer of the function is the only one: a POST that is not
    answered in time raises [TimeoutError] at its [with], and the handler
    below catches it.  Called from [fetch_data_from_api] ([enclosed] is
    true), the timer of the caller (api.py, line 189) started first and
    is the one that expires: what then passes through this function is a
    cancellation, which is no [Exception] and which none of the handlers
    catches; it becomes [TimeoutError] at the [with] of the caller. *)
Definition refresh_tokens_within (enclosed : bool) : M unit :=
  a <- get_auth ;;
  if negb (truthy (refresh_token a)) then
    log ERROR "No refresh token available. Need to login first." [] ;;;
    ret tt
  else
    let payload := [("user", JStr (username a));
                    ("password", JStr (password a));
                    ("refresh_token", refresh_token a)] in
    try_except
      (u <- endpoint "login" ;;
       response <- send (POST u payload) ;;
       if status response =? 200 then
         tokens <- response_json response ;;
         at_ <- py_get tokens "accessToken" ;;
         set_access_token at_ ;;;
         rt <- py_get tokens "refreshToken" ;;
         set_refresh_token rt ;;;
         log INFO "Auth token refresh successful" []
       else if unauthorized (status response) then
         log ERROR "Refresh token expired or invalid, re-login required." []
       else
         log ERROR "Failed to refresh tokens. Status code: %s"
             [LInt (status response)])
      (fun e =>
         if enclosed && is_TimeoutError e then
           raise e
         else if is_PWNAPIAuthenticationError e then
           log ERROR "Failed to renew token: %s. Starting user reauth flow"
               [LExn e] ;;;
           raise (ConfigEntryAuthFailed e)
         else if is_TimeoutError e then
           log ERROR "Timeout occurred during token refresh" []
         else if is_ClientError e then
           log ERROR "Client error occurred during token refresh: %s" [LExn e]
         else
           log ERROR "Unexpected error occurred during token refresh: %s"
               [LExn e]).

(** [PWNAuth.refresh_tokens], called on its own. *)
Definition refresh_tokens : M unit := refresh_tokens_within false.

(** [PWNAuth.is_authenticated] *)
Definition is_authenticated : M bool :=
  a <- get_auth ;;
  let authenticated := truthy (access_token a) in
  (if authenticated then log DEBUG "User is authenticated" [] else ret tt) ;;;
  ret authenticated.

(** [PWNAuth.logout] *)
Definition logout : M unit :=
  set_access_token JNull ;;;
  set_refresh_token JNull ;;;
  log INFO "Logout successful" [].

(** [PWNAPI.fetch_data_from_api].  [login] runs before the timer of line
    189 is started; the refresh and the retry run inside it.  A GET that
    is not answered in time raises [TimeoutError] whichever of the timers
    around it expires. *)
Definition fetch_data_from_api (u : url) : M json :=
  try_except
    (authenticated <- is_authenticated ;;
     (if negb authenticated then login ;;; ret tt else ret tt) ;;;
     a <- get_auth ;;
     response <- send (GET u (access_token a)) ;;
     if unauthorized (status response) then
       log WARNING "Unauthorized access to %s. Refreshing token and retrying."
           [LUrl u] ;;;
       refresh_tokens_within true ;;;
       a' <- get_auth ;;
       retry_response <- send (GET u (access_token a')) ;;
       if negb (status retry_response =? 200) then
         log ERROR
             "Failed to fetch data from %s after token refresh. Status code: %s"
             [LUrl u; LInt (status retry_response)] ;;;
         raise (UpdateFailed (status retry_response))
       else
         data <- response_json retry_response ;;
         log DEBUG "Fetched data from %s after token refresh" [LUrl u] ;;;
         ret data
     else if negb (status response =? 200) then
       log ERROR "Failed to fetch data from %s. Status code: %s"
           [LUrl u; LInt (status response)] ;;;
       raise (UpdateFailed (status response))
     else
       data <- response_json response ;;
       log DEBUG "Fetched data from %s: Successful" [LUrl u] ;;;
       ret data)
    (fun e =>
       if is_TimeoutError e then
         raise (PWNAPICommunicationError e)
       else
         log ERROR "Unexpected error fetching data from %s: %s"
             [LUrl u; LExn e] ;;;
         raise (PWNAPIError e)).

(** [PWNAPI.async_get_data]: [None] is [JNull]. *)
Definition async_get_data (endpoint_name : string) : M json :=
  match API_ENDPOINTS !! endpoint_name with
  | Some u =>
      if String.eqb u "" then
        log ERROR "Invalid endpoint: %s" [LStr endpoint_name] ;;; ret JNull
      else fetch_data_from_api (Url u)
  | None =>
      log ERROR "Invalid endpoint: %s" [LStr endpoint_name] ;;; ret JNull
  end.

(** [PWNAPI.async_get_settings] *)
Definition async_get_settings : M json :=
  u <- endpoint "settings" ;;
  async_get_data u.

(** What a call of [PWNAPI.fetch_data] ends in: the parsed body, its own
    [Exception(f"Error fetching data: {status}")], or an exception of
    the session, which it does not catch. *)
Inductive fetch_data_outcome : Type :=
  | Data (d : json)
  | ErrorFetchingData (status : Z)
  | Propagates (e : exn).

(** [PWNAPI.fetch_data]: one GET of [API_URL], outside any [try]. *)
Definition fetch_data : world -> fetch_data_outcome * world :=
  fun w =>
    match (authenticated <- is_authenticated ;;
           (if negb authenticated then login ;;; ret tt else ret tt) ;;;
           a <- get_auth ;;
           send (GET (Url API_URL) (access_token a))) w with
    | (Return response, w') =>
        if negb (status response =? 200) then
          (ErrorFetchingData (status response), w')
        else
          match json_body response with
          | Return d => (Data d, w')
          | Raise e => (Propagates e, w')
          end
    | (Raise e, w') => (Propagates e, w')
    end.

End Client.

(** ** coordinator.py *)

Section Coordinator.

Variable net : server.

(** Reading a local variable that may not have been assigned. *)
Definition read_local (name : string) (v : option json) : M json :=
  match v with
  | Some x => ret x
  | None => raise (UnboundLocalError name)
  end.

(** [PWNDataUpdateCoordinator._fetch_all_data]; the local
    [contact_preferences] is bound only in the branch that assigns it. *)
Definition _fetch_all_data : M json :=
  u1 <- endpoint "invoices_summary" ;;
  invoices <- fetch_data_from_api net (Url u1) ;;
  u2 <- endpoint "relation_data" ;;
  user_data <- fetch_data_from_api net (Url u2) ;;
  u3 <- endpoint "consumption_history" ;;
  consumption_history <- fetch_data_from_api net (Url u3) ;;
  u4 <- endpoint "payment_info" ;;
  payment_info <- fetch_data_from_api net (Url u4) ;;
  u5 <- endpoint "advance" ;;
  advance <- fetch_data_from_api net (Url u5) ;;
  u6 <- endpoint "notifications" ;;
  notifications <- fetch_data_from_api net (Url u6) ;;
  (if is_None invoices || negb (truthy invoices)
   then log WARNING "No or incomplete invoices data received from API" []
   else ret tt) ;;;
  (if is_None user_data || negb (truthy user_data)
   then log WARNING "No or incomplete user data received from API" []
   else ret tt) ;;;
  (if is_None consumption_history || negb (truthy consumption_history)
   then log WARNING
            "No or incomplete consumption history data received from API" []
   else ret tt) ;;;
  if negb (truthy invoices) then
    log WARNING "Incomplete invoices data received from API" [] ;;;
    ret (JObj [])
  else if negb (truthy user_data) then
    log WARNING "Incomplete user_data data received from API" [] ;;;
    ret (JObj [])
  else if negb (truthy consumption_history) then
    log WARNING "Incomplete consumption_history data received from API" [] ;;;
    ret (JObj [])
  else
    customer_id <- py_get user_data "relationNumber" ;;
    contact_preferences <-
      (if negb (is_None customer_id) then
         base <- endpoint "contact_preferences" ;;
         r <- fetch_data_from_api net (UrlSlash base customer_id) ;;
         ret (Some r)
       else ret None) ;;
    cp <- read_local "contact_preferences" contact_preferences ;;
    let data := JObj [ ("invoices", invoices);
                       ("user_data", user_data);
                       ("consumption_history", consumption_history);
                       ("contact_preferences", cp);
                       ("payment_info", payment_info);
                       ("advance", advance);
                       ("notifications", notifications) ] in
    log DEBUG "Received data: %s" [LJson data] ;;;
    ret data.

(** The coordinator object: the client it owns and [self.data], which
    the host sets to [None] at construction. *)
Record coordinator : Type := mkCoordinator {
  api : world;
  data : json
}.

(** [isinstance(e, UpdateFailed)] *)
Definition is_UpdateFailed (e : exn) : bool :=
  match e with UpdateFailed _ => true | _ => false end.

(** [d[k] = v] on a dictionary: the binding is replaced where it is, or
    added at the end. *)
Fixpoint dict_set (d : list (string * json)) (k : string) (v : json)
  : list (string * json) :=
  match d with
  | [] => [(k, v)]
  | (k', v') :: d' =>
      if String.eqb k k' then (k', v) :: d' else (k', v') :: dict_set d' k v
  end.

(** [data[k] = v]: only dictionaries (and lists, with an integer index)
    take an item assignment. *)
Definition py_setitem (x : json) (k : string) (v : json) : M json :=
  match x with
  | JObj d => ret (JObj (dict_set d k v))
  | _ => raise (OtherException "TypeError")
  end.

(** What [_async_update_data] ends in: it returns [self.data], re-raises
    an [UpdateFailed] as it is, or raises [ConfigEntryAuthFailed(e)] or
    [UpdateFailed(e)] from the exception [e] it caught. *)
Inductive update_outcome : Type :=
  | Updated (d : json)
  | ReraisesUpdateFailed (e : exn)
  | RaisesConfigEntryAuthFailed (cause : exn)
  | RaisesUpdateFailed (cause : exn).

(** [datetime.now(timezone.utc).isoformat()] at the time of the call. *)
Variable now : string.

(** [PWNDataUpdateCoordinator._async_update_data];
    [async_set_updated_data(data)] of the host stores [data] in
    [self.data]. *)
Definition _async_update_data (c : coordinator) : update_outcome * coordinator :=
  match (log DEBUG "Fetching PWN data" [] ;;;
         fetched <- _fetch_all_data ;;
         if truthy fetched then
           stamped <- py_setitem fetched "last_update" (JStr now) ;;
           ret (Some stamped)
         else ret None) (api c) with
  | (Return (Some stamped), w') =>
      (Updated stamped, {| api := w'; data := stamped |})
  | (Return None, w') =>
      (Updated (data c), {| api := w'; data := data c |})
  | (Raise e, w') =>
      if is_UpdateFailed e then
        (ReraisesUpdateFailed e,
         {| api := snd (log ERROR "Failed to update data: %s" [LExn e] w');
            data := data c |})
      else if is_PWNAPIAuthenticationError e then
        (RaisesConfigEntryAuthFailed e,
         {| api := snd (log ERROR "Authentication failed: %s" [LExn e] w');
            data := data c |})
      else if is_PWNAPIError e then
        (RaisesUpdateFailed e,
         {| api := snd (log ERROR "API error: %s" [LExn e] w');
            data := data c |})
      else
        (RaisesUpdateFailed e,
         {| api := snd (log ERROR "Failed to update data: %s" [LExn e] w');
            data := data c |})
  end.

End Coordinator.

(** ** __init__.py *)

Section Init.

(** [CONF_USERNAME] and [CONF_PASSWORD] of [homeassistant.const]. *)
Variable CONF_USERNAME CONF_PASSWORD : string.

Variable net : server.

(** const.py *)
Definition CONFIG_CONSTANTS : gmap string string :=
  list_to_map [ ("COORDINATOR", "coordinator");
                ("AUTH_TOKEN", "auth_token");
                ("REFRESH_TOKEN", "refresh_token") ].

(** [config_entry.data.get(k)] for an optional key [k]; the entries of a
    config entry are the strings of the config flow, [None] is an
    absent one.  [d.get(None)] finds nothing. *)
Definition data_get (data : gmap string string) (k : option string)
  : option string :=
  match k with
  | Some k => data !! k
  | None => None
  end.

(** [_get_credentials]: [not username or not password] holds for an
    absent entry and for an empty string.  The logger call goes to the
    trace of the session. *)
Definition _get_credentials (data : gmap string string) (t : list event)
  : option (string * string * option string) * list event :=
  let username := data_get data (Some CONF_USERNAME) in
  let password := data_get data (Some CONF_PASSWORD) in
  let auth_token := data_get data (CONFIG_CONSTANTS !! "AUTH_TOKEN") in
  let refused :=
    (None,
     (t ++ [Log ERROR "Username or password not provided in config entry." []])%list)
  in
  match username, password with
  | Some u, Some p =>
      if String.eqb u "" || String.eqb p "" then refused
      else (Some (u, p, auth_token), t)
  | _, _ => refused
  end.

(** [_create_api_and_coordinator]: a new authenticator on the session of
    the host. *)
Definition _create_api_and_coordinator (user pass : string) (t : list event)
  : world :=
  {| auth := PWNAuth_init user pass;
     trace := (t ++ [Log DEBUG
                       "Creating API and Data Update Coordinator for user: %s"
                       [LStr user]])%list |}.

(** [authenticate]: the access token, or [None].  The deadline of
    [asyncio.wait_for] is the timeout of the POST inside [login]. *)
Definition authenticate (data : gmap string string) (t : list event)
  : json * list event :=
  match _get_credentials data t with
  | (None, t') => (JNull, t')
  | (Some (user, pass, _), t') =>
      let w := _create_api_and_coordinator user pass t' in
      match try_except
              (success <- login net ;;
               a <- get_auth ;;
               if success && truthy (access_token a) then
                 log INFO "Successfully authenticated and obtained token." [] ;;;
                 ret (access_token a)
               else
                 log ERROR "Failed to authenticate." [] ;;;
                 ret JNull)
              (fun e =>
                 if is_TimeoutError e then
                   log ERROR "Authentication timed out." [] ;;; ret JNull
                 else
                   log ERROR "Unexpected error during authentication: %s"
                       [LExn e] ;;;
                   ret JNull) w with
      | (Return v, w') => (v, trace w')
      | (Raise _, w') => (JNull, trace w')
      end
  end.

End Init.

(** ** binary_sensor.py *)

(** const.py *)
Definition DATA_INVOICES : string := "invoices".

(** [v.get(k, default)] *)
Definition py_get_default (v : json) (k : string) (dflt : json) : M json :=
  match v with
  | JObj d => ret (match dict_get d k with Some x => x | None => dflt end)
  | _ => raise AttributeError
  end.

(** [v > 0]: integers and booleans compare with [0], nothing else
    does. *)
Definition py_gt_zero (v : json) : M bool :=
  match v with
  | JInt z => ret (0 <? z)
  | JBool b => ret b
  | _ => raise (OtherException "TypeError")
  end.

(** [PWNBinarySensor.is_on], of the sensor [name], on
    [self.coordinator.data]. *)
Definition is_on (name : string) (data : json) : M bool :=
  invoices_data <- py_get_default data DATA_INVOICES (JObj []) ;;
  if truthy invoices_data then
    n <- py_get_default invoices_data "numberOfOpenItems" (JInt 0) ;;
    py_gt_zero n
  else
    log WARNING "No invoice data available for sensor: %s" [LStr name] ;;;
    ret false.

(** ** auth.py: the synchronous authenticator

    It imports [DATA_URL] and [URL_TIMEOUT] from const.py, which does not
    define them; the base URL is a parameter here.  [requests] raises
    only from [requests.post] and [response.json()], and the code
    catches [RequestException] alone. *)

Module auth_py.
Section Auth.

Variable DATA_URL : string.
Variable net : server.

Definition api_login_url : string := DATA_URL +:+ "auth/login".

Definition post (r : request) : M response := send net r.

(** [PWNAuth.login] *)
Definition login : M bool :=
  a <- get_auth ;;
  let payload := [("user", JStr (username a)); ("password", JStr (password a))] in
  try_except
    (response <- post (POST api_login_url payload) ;;
     if status response =? 200 then
       tokens <- response_json response ;;
       at_ <- py_get tokens "accessToken" ;;
       set_access_token at_ ;;;
       rt <- py_get tokens "refreshToken" ;;
       set_refresh_token rt ;;;
       log INFO "Login successful" [] ;;;
       ret true
     else
       log ERROR "Failed to login. Status code: %s" [LInt (status response)] ;;;
       ret false)
    (fun e =>
       if is_RequestException e then
         log ERROR "Error occurred during login: %s" [LExn e] ;;; ret false
       else raise e).

(** [PWNAuth.refresh_tokens] *)
Definition refresh_tokens : M bool :=
  a <- get_auth ;;
  if negb (truthy (refresh_token a)) then
    log ERROR "No refresh token available. Need to login first." [] ;;;
    ret false
  else
    let payload := [("user", JStr (username a));
                    ("password", JStr (password a));
                    ("refresh_token", refresh_token a)] in
    try_except
      (response <- post (POST api_login_url payload) ;;
       if status response =? 200 then
         tokens <- response_json response ;;
         at_ <- py_get tokens "accessToken" ;;
         set_access_token at_ ;;;
         rt <- py_get tokens "refreshToken" ;;
         set_refresh_token rt ;;;
         log INFO "Token refresh successful" [] ;;;
         ret true
       else
         log ERROR "Failed to refresh tokens. Status code: %s"
             [LInt (status response)] ;;;
         ret false)
      (fun e =>
         if is_RequestException e then
           log ERROR "Error occurred during token refresh: %s" [LExn e] ;;;
           ret false
         else raise e).

(** [PWNAuth.logout] *)
Definition logout : M unit :=
  set_access_token JNull ;;;
  set_refresh_token JNull ;;;
  log INFO "Logged out successfully" [].

End Auth.
End auth_py.

(** ** Concrete sessions *)

(** A remote side that answers the n-th request of the session with the
    n-th outcome of a script, and refuses the connection afterwards. *)
Definition scripted (script : list outcome) : server :=
  fun t _ => nth (length (exchanges t)) script (Fails ClientError).

Definition ok (body : json) : outcome :=
  Responds {| status := 200; json_body := Return body |}.

Definition answers (st : Z) : outcome :=
  Responds {| status := st; json_body := Return JNull |}.

(** A client that was never logged in, and one that holds a token pair. *)
Definition fresh : world :=
  {| auth := PWNAuth_init "alice" "secret"; trace := [] |}.

Definition logged_in : world :=
  {| auth := {| username := "alice"; password := "secret";
                access_token := JStr "A0"; refresh_token := JStr "R0" |};
     trace := [] |}.

Definition token_pair (a r : string) : json :=
  JObj [("accessToken", JStr a); ("refreshToken", JStr r)].

(** ** The vocabulary of the statements *)

(** The two catalog URLs the statements name. *)
Definition login_url : string := "https://mijn.pwn.nl/api/auth/login".

Definition settings_url : string :=
  "https://mijn.pwn.nl/assets/configs/mijn-pwn-nl/settings.json".

(** The URL of a catalog name, for names that are in the catalog. *)
Definition url_of (name : string) : url :=
  Url (match API_ENDPOINTS !! name with Some u => u | None => "" end).

(** The POST of [login] and the POST of [refresh_tokens]. *)
Definition login_request (a : PWNAuth) : request :=
  POST login_url [("user", JStr (username a)); ("password", JStr (password a))].

Definition refresh_request (a : PWNAuth) : request :=
  POST login_url [("user", JStr (username a));
                  ("password", JStr (password a));
                  ("refresh_token", refresh_token a)].

(** The dictionary of a status-200 answer whose body parses to one. *)
Definition granted (o : outcome) : option (list (string * json)) :=
  match o with
  | Responds r =>
      if status r =? 200 then
        match json_body r with
        | Return (JObj d) => Some d
        | _ => None
        end
      else None
  | Fails _ => None
  end.

Definition is_granted (o : outcome) : bool :=
  match granted o with Some _ => true | None => false end.

(** Both assignments [self.access_token = tokens.get('accessToken')] and
    [self.refresh_token = tokens.get('refreshToken')]. *)
Definition store_tokens (a : PWNAuth) (d : list (string * json)) : PWNAuth :=
  {| username := username a; password := password a;
     access_token := get_or_None d "accessToken";
     refresh_token := get_or_None d "refreshToken" |}.

(** The authenticator after an answer to [login] or [refresh_tokens]. *)
Definition after_grant (a : PWNAuth) (o : outcome) : PWNAuth :=
  match granted o with
  | Some d => store_tokens a d
  | None => a
  end.

(** The GETs among the events, and the POSTs that carry a refresh token. *)
Definition gets_of (evs : list event) : list (request * outcome) :=
  List.filter is_get (exchanges evs).

Definition is_refresh (x : request * outcome) : bool :=
  match fst x with
  | POST _ payload =>
      match dict_get payload "refresh_token" with
      | Some _ => true
      | None => false
      end
  | GET _ _ => false
  end.

Definition refreshes_of (evs : list event) : list (request * outcome) :=
  List.filter is_refresh (exchanges evs).

(** A request timed out: the call itself, or the reading of a 200
    body. *)
Definition timed_out (o : outcome) : bool :=
  match o with
  | Fails e => is_TimeoutError e
  | Responds r =>
      (status r =? 200) &&
      match json_body r with
      | Raise e => is_TimeoutError e
      | Return _ => false
      end
  end.



(** [login()] followed by [is_authenticated()]. *)
Definition login_then_is_authenticated (net : server) : M bool :=
  login net ;;; is_authenticated.

(** A poll cycle in which every fetch is answered 200: the second answer
    is the relation data. *)
Definition some_data : json := JObj [("total", JInt 3)].

Definition relation_without_number : json :=
  JObj [("initials", JStr "A."); ("lastName", JStr "Jansen")].

Definition poll_script (relation : json) : list outcome :=
  [ok some_data; ok relation; ok some_data; ok some_data; ok some_data;
   ok some_data; ok some_data].

(** ** The vocabulary of the further properties *)

(** The credentials of an authenticator are those of another. *)
Definition same_credentials (a a' : PWNAuth) : Prop :=
  username a' = username a /\ password a' = password a.

Definition keeps_credentials (w w' : world) : Prop :=
  same_credentials (auth w) (auth w').

(** A request of a fetch of [u] goes where it should: a GET to [u], a
    POST (which carries the password) to the login endpoint. *)
Definition addressed_to (u : url) (x : request * outcome) : Prop :=
  match fst x with
  | GET u' _ => u' = u
  | POST p _ => p = login_url
  end.

(** What a computation can raise, what it can return, and how it can
    change the client. *)
Definition raises_only {A} (P : exn -> Prop) (c : M A) : Prop :=
  forall w e, fst (c w) = Raise e -> P e.

Definition returns_only {A} (Q : A -> Prop) (c : M A) : Prop :=
  forall w a, fst (c w) = Return a -> Q a.

Definition always {A} (R : world -> world -> Prop) (c : M A) : Prop :=
  forall w, R w (snd (c w)).

(** The exceptions [fetch_data_from_api] lets out, and those of a poll
    cycle. *)
Definition client_failure (e : exn) : Prop :=
  e = PWNAPICommunicationError TimeoutError \/
  exists c, e = PWNAPIError c /\ is_TimeoutError c = false.

Definition cycle_failure (e : exn) : Prop :=
  client_failure e \/ e = AttributeError \/
  e = UnboundLocalError "contact_preferences".

(** The keys of the mapping a poll cycle builds, and the results a poll
    cycle can return: the empty mapping, or a mapping with these keys
    whose three main entries are not empty and whose relation data have a
    customer id. *)
Definition cycle_keys : list string :=
  ["invoices"; "user_data"; "consumption_history"; "contact_preferences";
   "payment_info"; "advance"; "notifications"].

Definition cycle_result (d : json) : Prop :=
  d = JObj [] \/
  exists kv, d = JObj kv /\ map fst kv = cycle_keys /\
    truthy (get_or_None kv "invoices") = true /\
    truthy (get_or_None kv "user_data") = true /\
    truthy (get_or_None kv "consumption_history") = true /\
    exists rel, get_or_None kv "user_data" = JObj rel /\
                get_or_None rel "relationNumber" <> JNull.

(** The POST of [refresh_tokens], or the reading of its 200 body, raised
    [PWNAPIAuthenticationError]. *)
Definition raises_authentication_error (o : outcome) : bool :=
  match o with
  | Fails e => is_PWNAPIAuthenticationError e
  | Responds r =>
      (status r =? 200) &&
      match json_body r with
      | Raise e => is_PWNAPIAuthenticationError e
      | Return _ => false
      end
  end.

(** The trace after [_get_credentials] has refused a config entry. *)
Definition credentials_refused (t : list event) : list event :=
  (t ++ [Log ERROR "Username or password not provided in config entry." []])%list.

(** A config entry, a coordinator that has no data yet, and a time. *)
Definition alice_entry : gmap string string :=
  list_to_map [("username", "alice"); ("password", "secret")].

Definition new_coordinator : coordinator :=
  {| api := logged_in; data := JNull |}.

Definition noon : string := "2024-09-14T12:00:00+00:00".

Definition relation_with_number : json := JObj [("relationNumber", JInt 7)].

(** * Properties *)

(** ** The catalog *)

Example catalog_login : API_ENDPOINTS !! "login" = Some login_url.
Proof. vm_compute. reflexivity. Qed.

Lemma endpoint_login : endpoint "login" = ret login_url.
Proof. vm_compute. reflexivity. Qed.

Lemma endpoint_settings : endpoint "settings" = ret settings_url.
Proof. vm_compute. reflexivity. Qed.

Lemma settings_url_is_no_name : API_ENDPOINTS !! settings_url = None.
Proof. vm_compute. reflexivity. Qed.

(** ** The authenticator in closed form *)

Ltac run :=
  cbv beta iota zeta delta
    [bind try_except ret raise lift get_auth set_access_token
     set_refresh_token emit log send response_json py_get];
  cbn [fst snd auth trace username password access_token refresh_token
       status json_body negb orb andb
       is_TimeoutError is_ClientError is_PWNAPIAuthenticationError].

Lemma login_run (net : server) (w : world) :
  exists lv fmt args,
    login net w =
    (Return (is_granted (net (trace w) (login_request (auth w)))),
     {| auth := after_grant (auth w) (net (trace w) (login_request (auth w)));
        trace := trace w ++ [Exchange (login_request (auth w)) 
                    (net (trace w) (login_request (auth w)));
                             Log lv fmt args] |}).
Proof.
  unfold login. run. rewrite endpoint_login. run.
  fold (login_request (auth w)).
  set (o := net _ _). clearbody o. 
  unfold is_granted, after_grant, granted.
  destruct o as [[st body]|e]; run.
  - destruct (st =? 200) eqn:Hst.
    + destruct body as [[| | | | |d]|e]; run;
        rewrite <- ?app_assoc; simpl;
        try (destruct (is_TimeoutError e); [|destruct (is_ClientError e)]); run;
        rewrite <- ?app_assoc; simpl; eauto.
    + destruct (unauthorized st); run; rewrite <- ?app_assoc; simpl; eauto.
  - destruct (is_TimeoutError e); [|destruct (is_ClientError e)]; run;
      rewrite <- ?app_assoc; simpl; eauto.
Qed.

Lemma refresh_run_none (net : server) (w : world) :
  truthy (refresh_token (auth w)) = false ->
  refresh_tokens net w =
  (Return tt,
   {| auth := auth w;
      trace := trace w ++
               [Log ERROR "No refresh token available. Need to login first." []] |}).
Proof.
  intros H. unfold refresh_tokens, refresh_tokens_within. run. rewrite H.
  reflexivity.
Qed.

Ltac settle := repeat (run; simpl; rewrite <- ?app_assoc); eauto 10.

Lemma refresh_run (net : server) (w : world) :
  truthy (refresh_token (auth w)) = true ->
  exists r lv fmt args,
    refresh_tokens net w =
    (r,
     {| auth := after_grant (auth w) (net (trace w) (refresh_request (auth w)));
        trace := trace w ++ [Exchange (refresh_request (auth w))
                               (net (trace w) (refresh_request (auth w)));
                             Log lv fmt args] |})
    /\ (r = Return tt \/ r = Raise (ConfigEntryAuthFailed PWNAPIAuthenticationError)).
Proof.
  intros H. unfold refresh_tokens, refresh_tokens_within. run. rewrite H.
  cbn [negb].
  run. rewrite endpoint_login. run.
  fold (refresh_request (auth w)).
  set (o := net _ _). clearbody o.
  unfold after_grant, granted.
  destruct o as [[st body]|e]; run.
  - destruct (st =? 200) eqn:Hst.
    + destruct body as [[| | | | |d]|e]; try destruct e; settle.
    + destruct (unauthorized st); settle.
  - destruct e; settle.
Qed.

Ltac within_leaf :=
  repeat (run; simpl; rewrite <- ?app_assoc);
  try match goal with H : (_ =? 200) = _ |- _ => rewrite ?H end;
  cbn [andb];
  first
    [ left; split; reflexivity
    | right; split; [reflexivity|];
      do 4 eexists; split; [reflexivity|];
      first [left; split; reflexivity | right; split; reflexivity] ].

(** The refresh inside the timer of [fetch_data_from_api]. *)
Lemma refresh_within_run_none (net : server) (w : world) :
  truthy (refresh_token (auth w)) = false ->
  refresh_tokens_within net true w =
  (Return tt,
   {| auth := auth w;
      trace := trace w ++
               [Log ERROR "No refresh token available. Need to login first." []] |}).
Proof.
  intros H. unfold refresh_tokens_within. run. rewrite H. reflexivity.
Qed.

Lemma refresh_within_run (net : server) (w : world) :
  truthy (refresh_token (auth w)) = true ->
  (timed_out (net (trace w) (refresh_request (auth w))) = true /\
   refresh_tokens_within net true w =
   (Raise TimeoutError,
    {| auth := auth w;
       trace := trace w ++ [Exchange (refresh_request (auth w))
                              (net (trace w) (refresh_request (auth w)))] |}))
  \/
  (timed_out (net (trace w) (refresh_request (auth w))) = false /\
   exists r lv fmt args,
     refresh_tokens_within net true w =
     (r,
      {| auth := after_grant (auth w) (net (trace w) (refresh_request (auth w)));
         trace := trace w ++ [Exchange (refresh_request (auth w))
                                (net (trace w) (refresh_request (auth w)));
                              Log lv fmt args] |})
     /\ (r = Return tt /\
         raises_authentication_error
           (net (trace w) (refresh_request (auth w))) = false
         \/
         r = Raise (ConfigEntryAuthFailed PWNAPIAuthenticationError) /\
         raises_authentication_error
           (net (trace w) (refresh_request (auth w))) = true)).
Proof.
  intros H. unfold refresh_tokens_within. run. rewrite H. cbn [negb].
  run. rewrite endpoint_login. run.
  fold (refresh_request (auth w)).
  set (o := net _ _). clearbody o.
  unfold after_grant, granted.
  destruct o as [[st body]|e]; run.
  - destruct (st =? 200) eqn:Hst.
    + destruct body as [[| | | | |d]|e]; try destruct e; within_leaf.
    + destruct (unauthorized st); within_leaf.
  - destruct e; within_leaf.
Qed.

(** ** The paths of [fetch_data_from_api] *)

Lemma since_app (w : world) (a : PWNAuth) (evs : list event) :
  since w {| auth := a; trace := trace w ++ evs |} = evs.
Proof. unfold since. simpl. apply drop_app_length. Qed.

(** The first call of the remote side that is still to be answered. *)
Ltac next_call net :=
  match goal with
  | |- context [net ?t ?r] =>
      lazymatch t with
      | context [net _ _] => fail
      | _ => destruct (net t r) as [[?st ?body]|?e] eqn:?Hcall
      end
  end.

Ltac login_step net :=
  match goal with
  | |- context [login net ?w] =>
      destruct (login_run net w) as (?lv & ?fmt & ?args & ->); run;
      remember (net (trace w) (login_request (auth w))) as ol eqn:Hol
  end.

Ltac refresh_step net :=
  match goal with
  | |- context [refresh_tokens_within net true ?w1] =>
      let Hrt := fresh "Hrt" in
      destruct (truthy (refresh_token (auth w1))) eqn:Hrt;
      [ destruct (refresh_within_run net w1 Hrt)
          as [(?Hout & ->)
             |(?Hin & ?r & ?lv & ?fmt & ?args & -> & [(-> & ?Hna)|(-> & ?Hna)])]
      | rewrite (refresh_within_run_none net w1 Hrt) ]
  end; run;
  try match goal with
      | |- context [net ?t (refresh_request ?a)] =>
          remember (net t (refresh_request a)) as orf eqn:Horf
      end.

Ltac branch :=
  match goal with
  | |- context [if ?b then _ else _] => destruct b eqn:?
  | |- context [match ?b with Return _ => _ | Raise _ => _ end] =>
      is_var b; destruct b
  end.

(** One goal for each path through [fetch_data_from_api]. *)
Ltac fetch_paths net :=
  unfold fetch_data_from_api, is_authenticated; run;
  repeat (first [login_step net | refresh_step net | next_call net | branch];
          run);
  rewrite <- ?app_assoc; cbn [app]; rewrite ?since_app.

(** The requests in a list of events, by computation. *)
Ltac list_requests H :=
  cbn [gets_of refreshes_of exchanges omap list_omap List.filter is_get
       is_refresh fst dict_get refresh_request login_request
       String.eqb Ascii.eqb Bool.eqb] in H.







(** C1: a call of [fetch_data_from_api] sends at most two GETs and at
    most one refresh, whatever the remote side answers: after the retry
    there is no third request. *)
Theorem fetch_retries_at_most_once (net : server) (u : url) (w : world) :
  let w' := snd (fetch_data_from_api net u w) in
  trace w' = (trace w ++ since w w')%list /\
  (length (gets_of (since w w')) <= 2)%nat /\
  (length (refreshes_of (since w w')) <= 1)%nat.
Proof.
  fetch_paths net; (split; [reflexivity|]); vm_compute; lia.
Qed.




(** C3, as stated, fails: the result of [login] is not looked at.  After
    a rejected login the GET is sent all the same, with no token, and
    its answer is returned. *)
Lemma failed_login_still_sends_get :
  let run := fetch_data_from_api
               (scripted [answers 401; ok (JObj [("advance", JInt 12)])])
               (Url "u") fresh in
  fst run = Return (JObj [("advance", JInt 12)]) /\
  exchanges (trace (snd run)) =
    [ (login_request (auth fresh), answers 401);
      (GET (Url "u") JNull, ok (JObj [("advance", JInt 12)])) ].
Proof. vm_compute. auto. Qed.

(** C3, amended: when no access token is held, the first request of
    [fetch_data_from_api] is the login POST and the second is the GET,
    which is sent whether or not the login succeeded; after a login that
    stored nothing it carries the token held before. *)
Theorem fetch_logs_in_before_get (net : server) (u : url) (w : world) :
  truthy (access_token (auth w)) = false ->
  let ol := net (trace w) (login_request (auth w)) in
  exists o rest,
    exchanges (since w (snd (fetch_data_from_api net u w))) =
      (login_request (auth w), ol)
      :: (GET u (access_token (after_grant (auth w) ol)), o) :: rest /\
    (is_granted ol = false ->
     access_token (after_grant (auth w) ol) = access_token (auth w)).
Proof.
  intros Hno.
  assert (Hkeep : forall o, is_granted o = false ->
                            access_token (after_grant (auth w) o) =
                            access_token (auth w)).
  { intros o. unfold is_granted, after_grant. destruct (granted o); [discriminate|reflexivity]. }
  intros ol; subst ol.
  unfold fetch_data_from_api, is_authenticated; run; rewrite Hno; run.
  fetch_paths net.
  all: cbn [exchanges omap]; eauto.
Qed.

Lemma fetch_logs_in_before_get_witness :
  let net := scripted [answers 401; answers 500] in
  truthy (access_token (auth fresh)) = false /\
  exists o rest,
    exchanges (since fresh (snd (fetch_data_from_api net (Url "u") fresh))) =
      (login_request (auth fresh), answers 401)
      :: (GET (Url "u") JNull, o) :: rest.
Proof.
  intros net. split; [reflexivity|].
  destruct (fetch_logs_in_before_get net (Url "u") fresh)
    as (o & rest & H & _); [reflexivity|].
  exists o, rest. exact H.
Defined.




(** ** The token pair *)

(** C5, as stated, fails: a 200 answer that carries [accessToken] alone
    authenticates the client although [refreshToken] is missing. *)
Lemma access_token_alone_authenticates :
  let body := [("accessToken", JStr "A1")] in
  fst (login_then_is_authenticated (scripted [ok (JObj body)]) fresh) =
    Return true /\
  dict_get body "refreshToken" = None.
Proof. vm_compute. auto. Qed.

(** C5, amended: for a client that holds no access token, [login()]
    followed by [is_authenticated()] returns true iff the login endpoint
    answered 200 with a JSON object whose [accessToken] field is present
    and truthy in Python's sense (so not null and not the empty
    string); [refreshToken] plays no part. *)
Theorem login_then_authenticated_iff (net : server) (w : world) :
  truthy (access_token (auth w)) = false ->
  fst (login_then_is_authenticated net w) = Return true <->
  exists r d v,
    net (trace w) (login_request (auth w)) = Responds r /\
    status r = 200 /\
    json_body r = Return (JObj d) /\
    dict_get d "accessToken" = Some v /\
    truthy v = true.
Proof.
  intros Hno. unfold login_then_is_authenticated. run.
  destruct (login_run net w) as (lv & fmt & args & ->).
  unfold is_authenticated. run.
  unfold after_grant, granted.
  destruct (net (trace w) (login_request (auth w))) as [[st body]|e];
    cbn [status json_body].
  - destruct (st =? 200) eqn:Hst.
    + destruct body as [[| | | | |d]|e]; cbn [access_token store_tokens];
        try (rewrite Hno; run; split;
             [ discriminate
             | intros (r & d' & v' & Hr & Hs & Hb & Hd & Hv);
               simplify_eq/= ]).
      unfold get_or_None.
      destruct (dict_get d "accessToken") as [v|] eqn:Hd.
      * destruct (truthy v) eqn:Hv; run.
        -- split; [intros _|reflexivity].
           exists {| status := st; json_body := Return (JObj d) |}, d, v.
           repeat split; auto. simpl. lia.
        -- split; [discriminate|].
           intros (r & d' & v' & Hr & Hs & Hb & Hd' & Hv').
           simplify_eq/=; congruence.
      * run. split; [discriminate|].
        intros (r & d' & v' & Hr & Hs & Hb & Hd' & Hv').
        simplify_eq/=.
    + rewrite Hno; run. split; [discriminate|].
      intros (r & d' & v' & Hr & Hs & Hb & Hd' & Hv').
      simplify_eq/=; lia.
  - rewrite Hno; run. split; [discriminate|].
    intros (r & d' & v' & Hr & _). discriminate.
Qed.

Lemma login_then_authenticated_iff_witness :
  truthy (access_token (auth fresh)) = false /\
  (fst (login_then_is_authenticated
          (scripted [ok (JObj [("accessToken", JStr "A1")])]) fresh) =
     Return true <->
   exists r d v,
     scripted [ok (JObj [("accessToken", JStr "A1")])]
       (trace fresh) (login_request (auth fresh)) = Responds r /\
     status r = 200 /\
     json_body r = Return (JObj d) /\
     dict_get d "accessToken" = Some v /\
     truthy v = true).
Proof.
  split; [reflexivity|].
  apply login_then_authenticated_iff. reflexivity.
Defined.

(** C6, as stated, fails: a 200 answer without [refreshToken] replaces
    the stored refresh token by [None] while it stores the access
    token. *)
Lemma refresh_token_replaced_by_none :
  let a' := auth (snd (login (scripted [ok (JObj [("accessToken", JStr "A1")])])
                         logged_in)) in
  access_token (auth logged_in) = JStr "A0" /\
  refresh_token (auth logged_in) = JStr "R0" /\
  access_token a' = JStr "A1" /\
  refresh_token a' = JNull.
Proof. vm_compute. auto. Qed.

(** C6, amended: [login] and [refresh_tokens] either leave the stored
    pair as it was, or, on a 200 answer whose body is a JSON object,
    overwrite both tokens with [tokens.get('accessToken')] and
    [tokens.get('refreshToken')] of that object, a missing field giving
    [None]. *)
Theorem tokens_overwritten_together (net : server) (w : world) :
  (auth (snd (login net w)) = auth w \/
   exists d,
     granted (net (trace w) (login_request (auth w))) = Some d /\
     auth (snd (login net w)) = store_tokens (auth w) d) /\
  (auth (snd (refresh_tokens net w)) = auth w \/
   exists d,
     granted (net (trace w) (refresh_request (auth w))) = Some d /\
     auth (snd (refresh_tokens net w)) = store_tokens (auth w) d).
Proof.
  split.
  - destruct (login_run net w) as (lv & fmt & args & ->). cbn [snd auth].
    unfold after_grant. destruct (granted _) as [d|]; eauto.
  - destruct (truthy (refresh_token (auth w))) eqn:Hrt.
    + destruct (refresh_run net w Hrt) as (r & lv & fmt & args & -> & _).
      cbn [snd auth].
      unfold after_grant. destruct (granted _) as [d|]; eauto.
    + rewrite (refresh_run_none net w Hrt). left. reflexivity.
Qed.

(** ** Unknown endpoint names *)

(** C7, as stated, fails: for a name that is not in the catalog
    [async_get_data] raises nothing.  It returns [None], which is also
    what it returns for a catalog endpoint whose body is [null]. *)
Lemma unknown_endpoint_returns_none :
  let net := scripted [ok (token_pair "A1" "R1"); ok JNull] in
  API_ENDPOINTS !! "invoices" = None /\
  fst (async_get_data net "invoices" fresh) = Return JNull /\
  (forall e, fst (async_get_data net "invoices" fresh) <> Raise e) /\
  fst (async_get_data net "advance" fresh) =
    fst (async_get_data net "invoices" fresh).
Proof. vm_compute. repeat split; auto; discriminate. Qed.

(** C7, amended: for every endpoint name that is not in the catalog
    [async_get_data] logs "Invalid endpoint" and returns [None] at once:
    no request is sent and the authenticator is not touched. *)
Theorem unknown_endpoint_makes_no_call (net : server) (name : string) (w : world) :
  API_ENDPOINTS !! name = None ->
  async_get_data net name w =
    (Return JNull,
     {| auth := auth w;
        trace := trace w ++ [Log ERROR "Invalid endpoint: %s" [LStr name]] |}) /\
  exchanges (since w (snd (async_get_data net name w))) = [].
Proof.
  intros Hname. unfold async_get_data. rewrite Hname. run.
  split; [reflexivity|]. rewrite since_app. reflexivity.
Qed.

Lemma unknown_endpoint_makes_no_call_witness :
  API_ENDPOINTS !! "invoices" = None /\
  exchanges (since fresh (snd (async_get_data (scripted []) "invoices" fresh))) = [].
Proof.
  split; [vm_compute; reflexivity|].
  apply (unknown_endpoint_makes_no_call (scripted []) "invoices" fresh).
  vm_compute. reflexivity.
Defined.

(** C10: whatever the state of the client, [async_get_settings] returns
    [None] and sends nothing: it hands the URL of the settings endpoint
    to [async_get_data], which looks it up as a name of the catalog, and
    no name of the catalog is that URL. *)
Theorem settings_are_never_fetched (net : server) (w : world) :
  async_get_settings net w =
    (Return JNull,
     {| auth := auth w;
        trace := trace w ++
                 [Log ERROR "Invalid endpoint: %s" [LStr settings_url]] |}) /\
  exchanges (since w (snd (async_get_settings net w))) = [] /\
  API_ENDPOINTS !! "settings" = Some settings_url /\
  API_ENDPOINTS !! settings_url = None.
Proof.
  unfold async_get_settings. run. rewrite endpoint_settings. run.
  unfold async_get_data. rewrite settings_url_is_no_name. run.
  rewrite since_app.
  repeat split; vm_compute; reflexivity.
Qed.

(** ** Refreshing without a refresh token *)

(** C8: when no refresh token is stored ([None], or an empty string),
    [refresh_tokens] returns at once: it logs the error, sends nothing
    and leaves both stored tokens as they were; the synchronous variant
    of auth.py returns [False]. *)
Theorem refresh_without_token_fails_fast (net : server) (w : world) :
  truthy (refresh_token (auth w)) = false ->
  let no_token :=
    {| auth := auth w;
       trace := trace w ++
                [Log ERROR "No refresh token available. Need to login first." []] |} in
  refresh_tokens net w = (Return tt, no_token) /\
  (forall DATA_URL,
     auth_py.refresh_tokens DATA_URL net w = (Return false, no_token)) /\
  exchanges (since w no_token) = [].
Proof.
  intros Hrt no_token. subst no_token. split; [|split].
  - apply refresh_run_none, Hrt.
  - intros DATA_URL. unfold auth_py.refresh_tokens. run. rewrite Hrt. reflexivity.
  - rewrite since_app. reflexivity.
Qed.

Lemma refresh_without_token_fails_fast_witness :
  truthy (refresh_token (auth fresh)) = false /\
  refresh_tokens (scripted [ok (token_pair "A1" "R1")]) fresh =
    (Return tt,
     {| auth := auth fresh;
        trace := [Log ERROR "No refresh token available. Need to login first." []] |}).
Proof.
  split; [reflexivity|].
  apply (refresh_without_token_fails_fast
           (scripted [ok (token_pair "A1" "R1")]) fresh).
  reflexivity.
Defined.

(** ** The poll cycle *)

Lemma endpoint_lookup (name u : string) :
  API_ENDPOINTS !! name = Some u -> endpoint name = ret u.
Proof. intros H. unfold endpoint. rewrite H. reflexivity. Qed.

Lemma endpoint_url_of (name u : string) :
  API_ENDPOINTS !! name = Some u ->
  endpoint name = ret u /\ url_of name = Url u.
Proof.
  intros H. split; [apply endpoint_lookup, H|].
  unfold url_of. rewrite H. reflexivity.
Qed.

Lemma truthy_is_not_None (v : json) : truthy v = true -> is_None v = false.
Proof. destruct v; simpl; congruence. Qed.

Ltac catalog name :=
  let H := fresh in
  let E := fresh in
  let U := fresh in
  eassert (H : API_ENDPOINTS !! name = Some _) by (vm_compute; reflexivity);
  destruct (endpoint_url_of _ _ H) as [E U];
  rewrite E; rewrite U in *; clear H E U; run.

(** C9: when the six fetches of a poll cycle return, the data are not
    empty and the relation data have no [relationNumber] (or a null
    one), [_fetch_all_data] does not build its result mapping: reading
    the local [contact_preferences], which no branch has assigned,
    raises [UnboundLocalError]. *)
Theorem poll_cycle_without_customer_id_raises
    (net : server) (w0 w1 w2 w3 w4 w5 w6 : world)
    (invoices consumption_history payment_info advance notifications : json)
    (user_data : list (string * json)) :
  fetch_data_from_api net (url_of "invoices_summary") w0 = (Return invoices, w1) ->
  fetch_data_from_api net (url_of "relation_data") w1 = (Return (JObj user_data), w2) ->
  fetch_data_from_api net (url_of "consumption_history") w2 =
    (Return consumption_history, w3) ->
  fetch_data_from_api net (url_of "payment_info") w3 = (Return payment_info, w4) ->
  fetch_data_from_api net (url_of "advance") w4 = (Return advance, w5) ->
  fetch_data_from_api net (url_of "notifications") w5 = (Return notifications, w6) ->
  truthy invoices = true ->
  truthy (JObj user_data) = true ->
  truthy consumption_history = true ->
  get_or_None user_data "relationNumber" = JNull ->
  _fetch_all_data net w0 = (Raise (UnboundLocalError "contact_preferences"), w6).
Proof.
  intros H1 H2 H3 H4 H5 H6 Ti Tu Tc Hid.
  unfold _fetch_all_data. run.
  catalog "invoices_summary". rewrite H1. run.
  catalog "relation_data". rewrite H2. run.
  catalog "consumption_history". rewrite H3. run.
  catalog "payment_info". rewrite H4. run.
  catalog "advance". rewrite H5. run.
  catalog "notifications". rewrite H6. run.
  rewrite Ti, Tu, Tc. run.
  rewrite (truthy_is_not_None _ Ti), (truthy_is_not_None _ Tc). run.
  rewrite Hid. run. unfold read_local. run. reflexivity.
Qed.

Lemma poll_cycle_without_customer_id_witness :
  fst (_fetch_all_data (scripted (poll_script relation_without_number)) logged_in) =
    Raise (UnboundLocalError "contact_preferences").
Proof.
  erewrite (poll_cycle_without_customer_id_raises
              (scripted (poll_script relation_without_number)) logged_in).
  - reflexivity.
  - vm_compute. reflexivity.
  - vm_compute. reflexivity.
  - vm_compute. reflexivity.
  - vm_compute. reflexivity.
  - vm_compute. reflexivity.
  - vm_compute. reflexivity.
  - reflexivity.
  - reflexivity.
  - reflexivity.
  - reflexivity.
Defined.

(** With a [relationNumber] the same cycle returns its mapping. *)
Example poll_cycle_with_customer_id :
  fst (_fetch_all_data
         (scripted (poll_script (JObj [("relationNumber", JInt 7)]))) logged_in) =
    Return (JObj [ ("invoices", some_data);
                   ("user_data", JObj [("relationNumber", JInt 7)]);
                   ("consumption_history", some_data);
                   ("contact_preferences", some_data);
                   ("payment_info", some_data);
                   ("advance", some_data);
                   ("notifications", some_data) ]).
Proof. vm_compute. reflexivity. Qed.

(** ** Two sessions of the reference deployment *)

(** Credentials ("alice", "secret"), a login answered with the pair
    (A1, R1), and the invoices summary answered 200: the body is returned
    and the client holds A1. *)
Example fetch_invoices_summary :
  let body := JObj [("invoicesSummary", JObj [("numberOfOpenItems", JInt 2)])] in
  let run := async_get_data (scripted [ok (token_pair "A1" "R1"); ok body])
               "invoices_summary" fresh in
  fst run = Return body /\
  access_token (auth (snd run)) = JStr "A1" /\
  exchanges (trace (snd run)) =
    [ (login_request (auth fresh), ok (token_pair "A1" "R1"));
      (GET (url_of "invoices_summary") (JStr "A1"), ok body) ].
Proof. vm_compute. auto. Qed.

(** A 401, a granted refresh and a 200 on the retry: one refresh, and the
    retry carries the new token. *)
Example fetch_after_one_refresh :
  let run := fetch_data_from_api
               (scripted [answers 401; ok (token_pair "A1" "R1"); ok some_data])
               (Url "u") logged_in in
  fst run = Return some_data /\
  exchanges (trace (snd run)) =
    [ (GET (Url "u") (JStr "A0"), answers 401);
      (refresh_request (auth logged_in), ok (token_pair "A1" "R1"));
      (GET (Url "u") (JStr "A1"), ok some_data) ].
Proof. vm_compute. auto. Qed.

(** * Further properties *)

(** ** The authenticator *)

(** X1: [login] never raises.  It sends exactly one POST, to the login
    endpoint; it returns [True] exactly when the answer is a 200 whose
    body is a JSON object (whatever the object holds), and after [False]
    the stored tokens are what they were. *)
Theorem login_never_raises (net : server) (w : world) :
  let o := net (trace w) (login_request (auth w)) in
  fst (login net w) = Return (is_granted o) /\
  exchanges (since w (snd (login net w))) = [(login_request (auth w), o)] /\
  (is_granted o = false -> auth (snd (login net w)) = auth w).
Proof.
  intros o. subst o.
  destruct (login_run net w) as (lv & fmt & args & ->).
  cbn [fst snd auth]. rewrite since_app. repeat split.
  unfold is_granted, after_grant. destruct (granted _); [discriminate|reflexivity].
Qed.

Lemma login_never_raises_witness :
  is_granted (scripted [answers 401] (trace logged_in)
                (login_request (auth logged_in))) = false /\
  auth (snd (login (scripted [answers 401]) logged_in)) = auth logged_in.
Proof.
  split; [reflexivity|].
  apply (login_never_raises (scripted [answers 401]) logged_in). reflexivity.
Defined.

(** X2: with a refresh token stored, [refresh_tokens] raises only
    [ConfigEntryAuthFailed], and only when its POST (or the reading of a
    200 body) raised [PWNAPIAuthenticationError]; a timeout, a client
    error, a body that is no JSON object and any other exception are
    logged and the call returns. *)
Theorem refresh_swallows_all_but_authentication_error (net : server) (w : world) :
  truthy (refresh_token (auth w)) = true ->
  fst (refresh_tokens net w) =
    if raises_authentication_error (net (trace w) (refresh_request (auth w)))
    then Raise (ConfigEntryAuthFailed PWNAPIAuthenticationError)
    else Return tt.
Proof.
  intros H. unfold refresh_tokens, refresh_tokens_within. run. rewrite H.
  cbn [negb].
  run. rewrite endpoint_login. run.
  fold (refresh_request (auth w)).
  set (o := net _ _). clearbody o.
  destruct o as [[st body]|e]; run; simpl.
  - destruct (st =? 200) eqn:Hst; simpl.
    + destruct body as [[| | | | |d]|e]; try destruct e; reflexivity.
    + destruct (unauthorized st); reflexivity.
  - destruct e; reflexivity.
Qed.

Lemma refresh_swallows_witness :
  truthy (refresh_token (auth logged_in)) = true /\
  fst (refresh_tokens (scripted [Fails TimeoutError]) logged_in) = Return tt.
Proof.
  split; [reflexivity|].
  apply (refresh_swallows_all_but_authentication_error
           (scripted [Fails TimeoutError]) logged_in).
  reflexivity.
Defined.

(** X3: [logout] clears both tokens and sends nothing; afterwards
    [is_authenticated] is false and [refresh_tokens] sends nothing and
    changes nothing. *)
Theorem logout_is_local (net : server) (w : world) :
  let w1 := snd (logout w) in
  access_token (auth w1) = JNull /\
  refresh_token (auth w1) = JNull /\
  exchanges (since w w1) = [] /\
  fst (is_authenticated w1) = Return false /\
  exchanges (since w1 (snd (refresh_tokens net w1))) = [] /\
  auth (snd (refresh_tokens net w1)) = auth w1.
Proof.
  unfold logout. run. rewrite since_app.
  repeat split.
  rewrite refresh_run_none by reflexivity. cbn [snd].
  rewrite since_app. reflexivity.
Qed.

(** ** [fetch_data_from_api] *)

Lemma same_credentials_after_grant (a : PWNAuth) (o : outcome) :
  same_credentials a (after_grant a o).
Proof. unfold after_grant. destruct (granted o); split; reflexivity. Qed.

Lemma same_credentials_trans (a b c : PWNAuth) :
  same_credentials a b -> same_credentials b c -> same_credentials a c.
Proof. unfold same_credentials. intros [-> ->] [-> ->]. split; reflexivity. Qed.

Lemma after_grant_some (a : PWNAuth) (o : outcome) (d : list (string * json)) :
  granted o = Some d -> after_grant a o = store_tokens a d.
Proof. intros H. unfold after_grant. rewrite H. reflexivity. Qed.

Lemma after_grant_none (a : PWNAuth) (o : outcome) :
  granted o = None -> after_grant a o = a.
Proof. intros H. unfold after_grant. rewrite H. reflexivity. Qed.

(** Three facts of every path of [fetch_data_from_api]. *)
Lemma fetch_facts (net : server) (u : url) (w : world) :
  (forall e, fst (fetch_data_from_api net u w) = Raise e -> client_failure e) /\
  Forall (addressed_to u) (exchanges (since w (snd (fetch_data_from_api net u w)))) /\
  same_credentials (auth w) (auth (snd (fetch_data_from_api net u w))).
Proof.
  unfold client_failure. fetch_paths net.
  all: split;
    [ intros ? [=]; subst;
      first [ right; eexists; split; [reflexivity|]; first [reflexivity | assumption]
            | left; f_equal;
              match goal with
              | H : is_TimeoutError ?e = true |- _ => destruct e; try discriminate H
              end; reflexivity ]
    | ].
  all: split; [ cbn [exchanges omap]; repeat constructor |].
  all: cbn [auth];
       eauto using same_credentials_after_grant, same_credentials_trans.
  all: split; reflexivity.
Qed.

(** X4: whatever happens inside, [fetch_data_from_api] lets out only
    [PWNAPICommunicationError] (for a timeout) and the base [PWNAPIError]
    (wrapping anything else): no [UpdateFailed], no exception of the
    HTTP library and no [ConfigEntryAuthFailed] reaches the caller. *)
Theorem fetch_raises_only_client_errors
    (net : server) (u : url) (w : world) (e : exn) :
  fst (fetch_data_from_api net u w) = Raise e -> client_failure e.
Proof. apply fetch_facts. Qed.

Lemma fetch_raises_only_client_errors_witness :
  client_failure (PWNAPIError ClientError).
Proof.
  apply (fetch_raises_only_client_errors (scripted []) (Url "u") logged_in).
  vm_compute. reflexivity.
Defined.

(** X5: every GET of a call of [fetch_data_from_api] goes to the URL it
    was given, and every POST, which carries the password, goes to the
    login endpoint. *)
Theorem fetch_requests_are_addressed (net : server) (u : url) (w : world) :
  Forall (addressed_to u)
         (exchanges (since w (snd (fetch_data_from_api net u w)))).
Proof. apply fetch_facts. Qed.

(** X6: when a call sends two GETs, the second carries the access token
    of the refresh answer if the refresh was granted, and the token of
    the first GET if the refresh was not granted or not sent. *)
Theorem fetch_retry_carries_current_token (net : server) (u : url) (w : world) :
  forall r1 t1 o1 r2 t2 o2,
    gets_of (since w (snd (fetch_data_from_api net u w))) =
      [(GET r1 t1, o1); (GET r2 t2, o2)] ->
    (forall rq orf d,
       refreshes_of (since w (snd (fetch_data_from_api net u w))) = [(rq, orf)] ->
       granted orf = Some d ->
       t2 = get_or_None d "accessToken") /\
    (forall rq orf,
       refreshes_of (since w (snd (fetch_data_from_api net u w))) = [(rq, orf)] ->
       granted orf = None -> t2 = t1) /\
    (refreshes_of (since w (snd (fetch_data_from_api net u w))) = [] -> t2 = t1).
Proof.
  fetch_paths net; intros r1 t1 o1 r2 t2 o2 Hg; list_requests Hg; simplify_eq.
  all: repeat split.
  all: try (intros rq orf0 d Hr Hgr; list_requests Hr; simplify_eq;
            rewrite (after_grant_some _ _ _ Hgr); reflexivity).
  all: try (intros rq orf0 Hr Hgr; list_requests Hr; simplify_eq;
            rewrite (after_grant_none _ _ Hgr); reflexivity).
  all: intros Hr; list_requests Hr; simplify_eq; reflexivity.
Qed.

Lemma fetch_retry_carries_current_token_witness :
  JStr "A1" =
  get_or_None [("accessToken", JStr "A1"); ("refreshToken", JStr "R1")]
              "accessToken".
Proof.
  pose (net := scripted [answers 401; ok (token_pair "A1" "R1"); ok some_data]).
  destruct (fetch_retry_carries_current_token net (Url "u") logged_in
              (Url "u") (JStr "A0") (answers 401)
              (Url "u") (JStr "A1") (ok some_data)) as [H _].
  - vm_compute. reflexivity.
  - apply (H (refresh_request (auth logged_in)) (ok (token_pair "A1" "R1"))).
    + vm_compute. reflexivity.
    + reflexivity.
Defined.

(** X7: for a client that holds a token, a first GET answered 200 with a
    body ends the call: the body is returned, that GET is the only
    request, and the tokens are untouched. *)
Theorem fetch_answered_200_returns_body
    (net : server) (u : url) (w : world) (r : response) (d : json) :
  truthy (access_token (auth w)) = true ->
  net (trace w ++ [Log DEBUG "User is authenticated" []])%list
      (GET u (access_token (auth w))) = Responds r ->
  status r = 200 ->
  json_body r = Return d ->
  fst (fetch_data_from_api net u w) = Return d /\
  exchanges (since w (snd (fetch_data_from_api net u w))) =
    [(GET u (access_token (auth w)), Responds r)] /\
  auth (snd (fetch_data_from_api net u w)) = auth w.
Proof.
  intros Ha Hget Hst Hd.
  unfold fetch_data_from_api, is_authenticated. run. rewrite Ha. run.
  rewrite Hget. run. destruct r as [st body]. simpl in Hst, Hd. subst.
  run. simpl. rewrite <- ?app_assoc. cbn [app]. rewrite since_app.
  repeat split.
Qed.

Lemma fetch_answered_200_returns_body_witness :
  fst (fetch_data_from_api (scripted [ok some_data]) (Url "u") logged_in) =
    Return some_data.
Proof.
  apply (fetch_answered_200_returns_body (scripted [ok some_data]) (Url "u")
           logged_in {| status := 200; json_body := Return some_data |}).
  - reflexivity.
  - reflexivity.
  - reflexivity.
  - reflexivity.
Defined.

(** ** [async_get_data] and [fetch_data] *)

Lemma catalog_urls_not_empty (name u : string) :
  API_ENDPOINTS !! name = Some u -> String.eqb u "" = false.
Proof.
  intros H. unfold API_ENDPOINTS in H.
  apply elem_of_list_to_map_2 in H.
  repeat (apply elem_of_cons in H; destruct H as [H|H];
          [injection H as -> ->; reflexivity|]).
  apply elem_of_nil in H. destruct H.
Qed.

(** X9: for every name of the catalog [async_get_data] is the fetch of
    the URL of that name: no URL of the catalog is empty, so the
    "Invalid endpoint" branch is taken for unregistered names only. *)
Theorem registered_name_is_fetched (net : server) (name u : string) :
  API_ENDPOINTS !! name = Some u ->
  async_get_data net name = fetch_data_from_api net (Url u).
Proof.
  intros H. unfold async_get_data. rewrite H.
  rewrite (catalog_urls_not_empty _ _ H). reflexivity.
Qed.

Lemma registered_name_is_fetched_witness :
  async_get_data (scripted []) "advance" =
  fetch_data_from_api (scripted []) (Url "https://mijn.pwn.nl/api/advance").
Proof.
  apply (registered_name_is_fetched (scripted []) "advance").
  vm_compute. reflexivity.
Defined.

(** X10: [fetch_data] sends exactly one GET, to [API_URL], and never a
    refresh: a GET answered with a status other than 200 (a 401 too)
    ends in its own [Exception] with that status and is not retried, and
    an exception of the session or of the body reaches the caller as it
    is. *)
Theorem fetch_data_sends_one_get (net : server) (w : world) :
  exists tok o,
    gets_of (since w (snd (fetch_data net w))) = [(GET (Url API_URL) tok, o)] /\
    refreshes_of (since w (snd (fetch_data net w))) = [] /\
    fst (fetch_data net w) =
      match o with
      | Fails e => Propagates e
      | Responds r =>
          if status r =? 200 then
            match json_body r with
            | Return d => Data d
            | Raise e => Propagates e
            end
          else ErrorFetchingData (status r)
      end.
Proof.
  unfold fetch_data, is_authenticated. run.
  destruct (truthy (access_token (auth w))) eqn:Ha; run.
  - destruct (net _ _) as [[st body]|e] eqn:Hget; run.
    + destruct (st =? 200) eqn:Hst; run;
        [destruct body; run|]; rewrite <- ?app_assoc; cbn [app];
        rewrite since_app; do 2 eexists; (split; [reflexivity|]);
        (split; [reflexivity|]); cbn [status json_body]; rewrite ?Hst;
        reflexivity.
    + rewrite <- ?app_assoc; cbn [app]; rewrite since_app.
      do 2 eexists; (split; [reflexivity|]); split; reflexivity.
  - destruct (login_run net w) as (lv & fmt & args & ->). run.
    destruct (net (_ ++ _)%list _) as [[st body]|e] eqn:Hget; run.
    + destruct (st =? 200) eqn:Hst; run;
        [destruct body; run|]; rewrite <- ?app_assoc; cbn [app];
        rewrite since_app; do 2 eexists; (split; [reflexivity|]);
        (split; [reflexivity|]); cbn [status json_body]; rewrite ?Hst;
        reflexivity.
    + rewrite <- ?app_assoc; cbn [app]; rewrite since_app.
      do 2 eexists; (split; [reflexivity|]); split; reflexivity.
Qed.

(** ** auth.py *)

(** X11: [login] of auth.py sends one POST and catches
    [RequestException] alone.  It returns [True] exactly when the answer
    is a 200 whose body is a JSON object; any other exception of the
    POST, and the [AttributeError] of a 200 body that is no object,
    reach the caller; unless it returns [True] the tokens are what they
    were. *)
Theorem auth_py_login_catches_request_errors_only
    (DATA_URL : string) (net : server) (w : world) :
  let req := POST (auth_py.api_login_url DATA_URL)
                  [("user", JStr (username (auth w)));
                   ("password", JStr (password (auth w)))] in
  let o := net (trace w) req in
  let run := auth_py.login DATA_URL net w in
  exchanges (since w (snd run)) = [(req, o)] /\
  (fst run = Return true <-> is_granted o = true) /\
  (fst run <> Return true -> auth (snd run) = auth w) /\
  (forall e, fst run = Raise e -> is_RequestException e = false) /\
  (forall e, o = Fails e -> is_RequestException e = false -> fst run = Raise e) /\
  (forall r v, o = Responds r -> status r = 200 -> json_body r = Return v ->
               granted o = None -> fst run = Raise AttributeError).
Proof.
  intros req o run0. subst run0. unfold auth_py.login, auth_py.post. run.
  fold req. fold o. clearbody o.
  unfold is_granted, granted.
  destruct o as [[st body]|e]; run.
  - destruct (st =? 200) eqn:Hst; run.
    + destruct body as [[| | | | |d]|e]; run; simpl;
        try (destruct (is_RequestException e) eqn:He; run);
        rewrite <- ?app_assoc; cbn [app]; rewrite since_app;
        repeat split; intros; simplify_eq/=; try congruence; try lia.
    + rewrite <- ?app_assoc; cbn [app]; rewrite since_app;
        repeat split; intros; simplify_eq/=; try congruence; try lia.
  - simpl. destruct (is_RequestException e) eqn:He; run;
      rewrite <- ?app_assoc; cbn [app]; rewrite since_app;
        repeat split; intros; simplify_eq/=; try congruence.
Qed.

Lemma auth_py_login_witness :
  fst (auth_py.login "https://mijn.pwn.nl/api/" (scripted [ok (JArr [])]) fresh) =
    Raise AttributeError.
Proof.
  destruct (auth_py_login_catches_request_errors_only
              "https://mijn.pwn.nl/api/" (scripted [ok (JArr [])]) fresh)
    as (_ & _ & _ & _ & _ & H).
  apply (H {| status := 200; json_body := Return (JArr []) |} (JArr [])).
  - reflexivity.
  - reflexivity.
  - reflexivity.
  - reflexivity.
Defined.

(** ** Composing computations *)

Section Composition.

Context {A B : Type}.

Lemma raises_only_bind (P : exn -> Prop) (c : M A) (k : A -> M B) :
  raises_only P c -> (forall a, raises_only P (k a)) ->
  raises_only P (bind c k).
Proof.
  intros Hc Hk w e. unfold bind.
  destruct (c w) as [[a|e'] w'] eqn:Hcw.
  - apply Hk.
  - cbn. intros [= <-]. apply (Hc w). rewrite Hcw. reflexivity.
Qed.

Lemma returns_only_bind (Q : B -> Prop) (c : M A) (k : A -> M B) :
  (forall a, returns_only Q (k a)) -> returns_only Q (bind c k).
Proof.
  intros Hk w b. unfold bind.
  destruct (c w) as [[a|e'] w'] eqn:Hcw.
  - apply Hk.
  - cbn. discriminate.
Qed.

Lemma returns_only_bind_ret (Q : B -> Prop) (a : A) (k : A -> M B) :
  returns_only Q (k a) -> returns_only Q (bind (ret a) k).
Proof. intros H w b. apply H. Qed.

Lemma returns_only_bind_raise (Q : B -> Prop) (e : exn) (k : A -> M B) :
  returns_only Q (bind (raise e) k).
Proof. intros w b. cbn. discriminate. Qed.

Lemma always_bind (R : world -> world -> Prop) `{!Transitive R}
    (c : M A) (k : A -> M B) :
  always R c -> (forall a, always R (k a)) -> always R (bind c k).
Proof.
  intros Hc Hk w. unfold bind. specialize (Hc w).
  destruct (c w) as [[a|e'] w'] eqn:Hcw; cbn in *.
  - etransitivity; [exact Hc|apply Hk].
  - exact Hc.
Qed.

End Composition.

Lemma returns_only_bind_py_get {B} (Q : B -> Prop) (v : json) (key : string)
    (k : json -> M B) :
  (forall d, v = JObj d -> returns_only Q (k (get_or_None d key))) ->
  returns_only Q (bind (py_get v key) k).
Proof.
  intros H. destruct v; try apply returns_only_bind_raise.
  apply returns_only_bind_ret. apply H. reflexivity.
Qed.

Lemma raises_only_ret {A} (P : exn -> Prop) (a : A) : raises_only P (ret a).
Proof. intros w e. cbn. discriminate. Qed.

Lemma raises_only_log (P : exn -> Prop) lv fmt args :
  raises_only P (log lv fmt args).
Proof. intros w e. cbn. discriminate. Qed.

Lemma raises_only_endpoint (P : exn -> Prop) (name u : string) :
  API_ENDPOINTS !! name = Some u -> raises_only P (endpoint name).
Proof. intros H. rewrite (endpoint_lookup _ _ H). apply raises_only_ret. Qed.

Lemma returns_only_ret {A} (Q : A -> Prop) (a : A) : Q a -> returns_only Q (ret a).
Proof. intros H w b. cbn. intros [= <-]. exact H. Qed.

Lemma returns_only_raise {A} (Q : A -> Prop) (e : exn) : returns_only Q (raise e).
Proof. intros w b. cbn. discriminate. Qed.

#[local] Instance keeps_credentials_trans : Transitive keeps_credentials.
Proof.
  intros x y z. unfold keeps_credentials. apply same_credentials_trans.
Qed.

Lemma always_ret {A} (a : A) : always keeps_credentials (ret a).
Proof. intros w. split; reflexivity. Qed.

Lemma always_log lv fmt args : always keeps_credentials (log lv fmt args).
Proof. intros w. split; reflexivity. Qed.

Lemma always_endpoint (name : string) : always keeps_credentials (endpoint name).
Proof. intros w. unfold endpoint. destruct (_ !! _); split; reflexivity. Qed.

Lemma always_py_get v k : always keeps_credentials (py_get v k).
Proof. intros w. destruct v; split; reflexivity. Qed.

Lemma always_read_local n v : always keeps_credentials (read_local n v).
Proof. intros w. destruct v; split; reflexivity. Qed.

Lemma raises_only_fetch (net : server) (u : url) :
  raises_only cycle_failure (fetch_data_from_api net u).
Proof. intros w e H. left. apply (fetch_facts net u w), H. Qed.

Lemma always_fetch (net : server) (u : url) :
  always keeps_credentials (fetch_data_from_api net u).
Proof. intros w. apply (fetch_facts net u w). Qed.

Lemma raises_only_py_get (v : json) (k : string) :
  raises_only cycle_failure (py_get v k).
Proof.
  intros w e. destruct v; cbn; try discriminate; intros [= <-]; right; left;
    reflexivity.
Qed.

Lemma raises_only_read_local (v : option json) :
  raises_only cycle_failure (read_local "contact_preferences" v).
Proof.
  intros w e. destruct v; cbn; try discriminate. intros [= <-]. right; right.
  reflexivity.
Qed.

Ltac leaf :=
  first [ eapply raises_only_endpoint; vm_compute; reflexivity
        | apply always_endpoint
        | apply raises_only_ret | apply raises_only_log
        | apply raises_only_fetch | apply raises_only_py_get
        | apply raises_only_read_local
        | apply always_ret | apply always_log
        | apply always_fetch | apply always_py_get | apply always_read_local
        | apply returns_only_raise | apply returns_only_bind_raise ].

(** One rule for each shape of a computation. *)
Ltac compose :=
  repeat first
    [ match goal with
      | |- returns_only _ (bind (endpoint ?n) _) =>
          erewrite (endpoint_lookup n) by (vm_compute; reflexivity);
          apply returns_only_bind_ret
      | |- returns_only _ (bind (fetch_data_from_api _ _) _) =>
          apply returns_only_bind; intros ?
      | |- returns_only _ (@bind unit _ _ _) =>
          apply returns_only_bind; intros ?
      end
    | leaf
    | apply raises_only_bind; [ | intros ? ]
    | apply always_bind; [ typeclasses eauto | | intros ? ]
    | apply returns_only_bind_ret
    | apply returns_only_bind_py_get; intros ? ->
    | match goal with
      | |- returns_only _ (bind (read_local _ ?v) _) =>
          destruct v; cbn [read_local]
      end
    | match goal with
      | |- context [if ?b then _ else _] => destruct b eqn:?
      end
    | apply returns_only_bind; intros ? ].

(** ** The poll cycle as a whole *)

Lemma cycle_raises_only (net : server) :
  raises_only cycle_failure (_fetch_all_data net).
Proof. unfold _fetch_all_data. compose. Qed.

Lemma cycle_keeps_credentials (net : server) :
  always keeps_credentials (_fetch_all_data net).
Proof. unfold _fetch_all_data. compose. Qed.

Lemma truthy_of_negb (v : json) : negb (truthy v) = false -> truthy v = true.
Proof. destruct (truthy v); [reflexivity|discriminate]. Qed.

Lemma cycle_returns_only (net : server) :
  returns_only cycle_result (_fetch_all_data net).
Proof.
  unfold _fetch_all_data. compose.
  all: apply returns_only_ret; try (left; reflexivity).
  all: right; eexists; split; [reflexivity|].
  all: split; [reflexivity|].
  all: cbn [get_or_None dict_get String.eqb Ascii.eqb Bool.eqb].
  all: repeat (split; [apply truthy_of_negb; assumption|]).
  all: eexists; split; [reflexivity|].
  all: intros Hnull;
       match goal with
       | H : negb (is_None _) = true |- _ => rewrite Hnull in H; discriminate H
       end.
Qed.

(** X8: the credentials of the authenticator never change: not through
    [login], [refresh_tokens] or [logout], not through a fetch and not
    through a whole poll cycle. *)
Theorem credentials_never_change (net : server) (u : url) (w : world) :
  same_credentials (auth w) (auth (snd (login net w))) /\
  same_credentials (auth w) (auth (snd (refresh_tokens net w))) /\
  same_credentials (auth w) (auth (snd (logout w))) /\
  same_credentials (auth w) (auth (snd (fetch_data_from_api net u w))) /\
  same_credentials (auth w) (auth (snd (_fetch_all_data net w))).
Proof.
  repeat split.
  - destruct (login_run net w) as (lv & fmt & args & ->).
    apply (same_credentials_after_grant (auth w)).
  - destruct (login_run net w) as (lv & fmt & args & ->).
    apply (same_credentials_after_grant (auth w)).
  - destruct (truthy (refresh_token (auth w))) eqn:Hrt.
    + destruct (refresh_run net w Hrt) as (r & lv & fmt & args & -> & _).
      apply (same_credentials_after_grant (auth w)).
    + rewrite (refresh_run_none net w Hrt). reflexivity.
  - destruct (truthy (refresh_token (auth w))) eqn:Hrt.
    + destruct (refresh_run net w Hrt) as (r & lv & fmt & args & -> & _).
      apply (same_credentials_after_grant (auth w)).
    + rewrite (refresh_run_none net w Hrt). reflexivity.
  - apply (fetch_facts net u w).
  - apply (fetch_facts net u w).
  - apply (cycle_keeps_credentials net w).
  - apply (cycle_keeps_credentials net w).
Qed.

(** X12: a poll cycle returns the empty mapping, or a mapping with
    exactly the keys invoices, user_data, consumption_history,
    contact_preferences, payment_info, advance and notifications, in which
    the first three are not empty and the relation data carry a customer
    id that is not null. *)
Theorem poll_cycle_result_shape (net : server) (w : world) (d : json) :
  fst (_fetch_all_data net w) = Return d -> cycle_result d.
Proof. apply cycle_returns_only. Qed.

Lemma poll_cycle_result_shape_witness :
  cycle_result (JObj [ ("invoices", some_data);
                       ("user_data", relation_with_number);
                       ("consumption_history", some_data);
                       ("contact_preferences", some_data);
                       ("payment_info", some_data);
                       ("advance", some_data);
                       ("notifications", some_data) ]).
Proof.
  apply (poll_cycle_result_shape (scripted (poll_script relation_with_number))
           logged_in).
  vm_compute. reflexivity.
Defined.

(** X13: a poll cycle raises only what a fetch lets out (the two client
    errors), the [AttributeError] of relation data that are no object,
    and the [UnboundLocalError] of [contact_preferences]: never
    [KeyError], [UpdateFailed] or an authentication error. *)
Theorem poll_cycle_raises_only_known_failures
    (net : server) (w : world) (e : exn) :
  fst (_fetch_all_data net w) = Raise e -> cycle_failure e.
Proof. apply cycle_raises_only. Qed.

Lemma poll_cycle_raises_only_known_failures_witness :
  cycle_failure (PWNAPIError (UpdateFailed 500)).
Proof.
  apply (poll_cycle_raises_only_known_failures (scripted [answers 500])
           logged_in).
  vm_compute. reflexivity.
Defined.

(** X14: when the six fetches return, the three main entries are not
    empty and the relation data carry a customer id, the cycle fetches
    the contact preferences of that customer and returns the mapping of
    the seven results; nothing is sent after that seventh fetch. *)
Theorem poll_cycle_with_customer_id_returns_mapping
    (net : server) (w0 w1 w2 w3 w4 w5 w6 w7 : world)
    (invoices consumption_history payment_info advance notifications : json)
    (user_data : list (string * json)) (customer_id contact_preferences : json) :
  fetch_data_from_api net (url_of "invoices_summary") w0 = (Return invoices, w1) ->
  fetch_data_from_api net (url_of "relation_data") w1 = (Return (JObj user_data), w2) ->
  fetch_data_from_api net (url_of "consumption_history") w2 =
    (Return consumption_history, w3) ->
  fetch_data_from_api net (url_of "payment_info") w3 = (Return payment_info, w4) ->
  fetch_data_from_api net (url_of "advance") w4 = (Return advance, w5) ->
  fetch_data_from_api net (url_of "notifications") w5 = (Return notifications, w6) ->
  truthy invoices = true ->
  truthy (JObj user_data) = true ->
  truthy consumption_history = true ->
  dict_get user_data "relationNumber" = Some customer_id ->
  is_None customer_id = false ->
  fetch_data_from_api net
    (UrlSlash "https://mijn.pwn.nl/api/Customer/contact-preferences" customer_id)
    w6 = (Return contact_preferences, w7) ->
  fst (_fetch_all_data net w0) =
    Return (JObj [ ("invoices", invoices);
                   ("user_data", JObj user_data);
                   ("consumption_history", consumption_history);
                   ("contact_preferences", contact_preferences);
                   ("payment_info", payment_info);
                   ("advance", advance);
                   ("notifications", notifications) ]) /\
  exchanges (since w7 (snd (_fetch_all_data net w0))) = [].
Proof.
  intros H1 H2 H3 H4 H5 H6 Ti Tu Tc Hid Hc H7.
  unfold _fetch_all_data. run.
  catalog "invoices_summary". rewrite H1. run.
  catalog "relation_data". rewrite H2. run.
  catalog "consumption_history". rewrite H3. run.
  catalog "payment_info". rewrite H4. run.
  catalog "advance". rewrite H5. run.
  catalog "notifications". rewrite H6. run.
  rewrite Ti, Tu, Tc. run.
  rewrite (truthy_is_not_None _ Ti), (truthy_is_not_None _ Tc).
  cbn [is_None]. run.
  unfold get_or_None. rewrite Hid. rewrite Hc. run.
  erewrite (endpoint_lookup "contact_preferences") by (vm_compute; reflexivity).
  run. rewrite H7. run. unfold read_local. run.
  split; [reflexivity|]. rewrite since_app. reflexivity.
Qed.

Lemma poll_cycle_with_customer_id_witness :
  fst (_fetch_all_data (scripted (poll_script relation_with_number)) logged_in) =
    Return (JObj [ ("invoices", some_data);
                   ("user_data", relation_with_number);
                   ("consumption_history", some_data);
                   ("contact_preferences", some_data);
                   ("payment_info", some_data);
                   ("advance", some_data);
                   ("notifications", some_data) ]).
Proof.
  edestruct (poll_cycle_with_customer_id_returns_mapping
               (scripted (poll_script relation_with_number)) logged_in)
    as [H _]; [ .. | exact H ].
  - vm_compute. reflexivity.
  - vm_compute. reflexivity.
  - vm_compute. reflexivity.
  - vm_compute. reflexivity.
  - vm_compute. reflexivity.
  - vm_compute. reflexivity.
  - reflexivity.
  - reflexivity.
  - reflexivity.
  - reflexivity.
  - reflexivity.
  - vm_compute. reflexivity.
Defined.

(** X15: when the six fetches return and the invoices, the relation data
    or the consumption history are empty (or [None]), the cycle returns
    the empty mapping: it sends nothing more and leaves the tokens as
    the sixth fetch left them. *)
Theorem poll_cycle_with_missing_data_is_empty
    (net : server) (w0 w1 w2 w3 w4 w5 w6 : world)
    (invoices user_data consumption_history payment_info advance notifications : json) :
  fetch_data_from_api net (url_of "invoices_summary") w0 = (Return invoices, w1) ->
  fetch_data_from_api net (url_of "relation_data") w1 = (Return user_data, w2) ->
  fetch_data_from_api net (url_of "consumption_history") w2 =
    (Return consumption_history, w3) ->
  fetch_data_from_api net (url_of "payment_info") w3 = (Return payment_info, w4) ->
  fetch_data_from_api net (url_of "advance") w4 = (Return advance, w5) ->
  fetch_data_from_api net (url_of "notifications") w5 = (Return notifications, w6) ->
  truthy invoices && truthy user_data && truthy consumption_history = false ->
  fst (_fetch_all_data net w0) = Return (JObj []) /\
  exchanges (since w6 (snd (_fetch_all_data net w0))) = [] /\
  auth (snd (_fetch_all_data net w0)) = auth w6.
Proof.
  intros H1 H2 H3 H4 H5 H6 Hempty.
  unfold _fetch_all_data. run.
  catalog "invoices_summary". rewrite H1. run.
  catalog "relation_data". rewrite H2. run.
  catalog "consumption_history". rewrite H3. run.
  catalog "payment_info". rewrite H4. run.
  catalog "advance". rewrite H5. run.
  catalog "notifications". rewrite H6. run.
  destruct (truthy invoices) eqn:Ti, (truthy user_data) eqn:Tu,
    (truthy consumption_history) eqn:Tc;
    try discriminate Hempty;
    rewrite ?orb_true_r, ?orb_false_r; run;
    repeat (match goal with
            | |- context [if is_None ?v then _ else _] => destruct (is_None v)
            end; run);
    rewrite <- ?app_assoc; cbn [app];
    (split; [reflexivity|]); unfold since; cbn [trace];
    rewrite drop_app_length; split; reflexivity.
Qed.

Lemma poll_cycle_with_missing_data_witness :
  fst (_fetch_all_data (scripted (poll_script (JObj []))) logged_in) =
    Return (JObj []).
Proof.
  edestruct (poll_cycle_with_missing_data_is_empty
               (scripted (poll_script (JObj []))) logged_in)
    as [H _]; [ .. | exact H ].
  - vm_compute. reflexivity.
  - vm_compute. reflexivity.
  - vm_compute. reflexivity.
  - vm_compute. reflexivity.
  - vm_compute. reflexivity.
  - vm_compute. reflexivity.
  - reflexivity.
Defined.

(** ** The coordinator *)









(** ** __init__.py *)

(** X18: without a username or without a password in the config entry,
    or with an empty one, [authenticate] returns [None] and sends
    nothing: it only logs the refusal. *)
Theorem authenticate_needs_both_credentials
    (U P : string) (net : server) (data : gmap string string) (t : list event) :
  data !! U = None \/ data !! U = Some "" \/
  data !! P = None \/ data !! P = Some "" ->
  authenticate U P net data t = (JNull, credentials_refused t).
Proof.
  intros H. unfold authenticate, _get_credentials, data_get, credentials_refused.
  destruct (data !! U) as [u|]; [|reflexivity].
  destruct (data !! P) as [p|]; [|reflexivity].
  destruct H as [H|[H|[H|H]]]; try discriminate; simplify_eq; cbn.
  - reflexivity.
  - rewrite orb_true_r. reflexivity.
Qed.

Lemma authenticate_needs_both_credentials_witness :
  authenticate "username" "password" (scripted [ok (token_pair "A1" "R1")])
    (delete "password" alice_entry) [] =
  (JNull, credentials_refused []).
Proof.
  apply authenticate_needs_both_credentials.
  right; right; left. vm_compute. reflexivity.
Defined.

(** X19: with both credentials, [authenticate] makes a new authenticator,
    sends the one POST of its [login] and returns the access token it
    then holds if that token is truthy, and [None] otherwise; it never
    raises. *)
Theorem authenticate_returns_truthy_token_or_none
    (U P : string) (net : server) (data : gmap string string) (t : list event)
    (u p : string) :
  data !! U = Some u -> data !! P = Some p ->
  String.eqb u "" = false -> String.eqb p "" = false ->
  let w := _create_api_and_coordinator u p t in
  let o := net (trace w) (login_request (auth w)) in
  let token := access_token (after_grant (auth w) o) in
  fst (authenticate U P net data t) = (if truthy token then token else JNull) /\
  exchanges (drop (length t) (snd (authenticate U P net data t))) =
    [(login_request (auth w), o)].
Proof.
  intros Hu Hp Hue Hpe w o token.
  unfold authenticate, _get_credentials, data_get. rewrite Hu, Hp.
  rewrite Hue, Hpe. cbn [orb].
  fold w. run.
  destruct (login_run net w) as (lv & fmt & args & ->). run.
  fold o. fold token.
  assert (Hg : is_granted o = false -> truthy token = false).
  { unfold token, is_granted, after_grant. destruct (granted o); [discriminate|].
    reflexivity. }
  destruct (is_granted o); cbn [andb].
  - destruct (truthy token); run; cbn [fst snd trace];
      (split; [reflexivity|]); unfold w, _create_api_and_coordinator; cbn [trace];
      rewrite <- !app_assoc, drop_app_length; reflexivity.
  - rewrite (Hg eq_refl). run. cbn [fst snd trace].
    split; [reflexivity|]. unfold w, _create_api_and_coordinator; cbn [trace].
    rewrite <- !app_assoc, drop_app_length. reflexivity.
Qed.

Lemma authenticate_returns_truthy_token_witness :
  fst (authenticate "username" "password"
         (scripted [ok (token_pair "A1" "R1")]) alice_entry []) = JStr "A1".
Proof.
  apply (authenticate_returns_truthy_token_or_none "username" "password"
           (scripted [ok (token_pair "A1" "R1")]) alice_entry []
           "alice" "secret").
  - vm_compute. reflexivity.
  - vm_compute. reflexivity.
  - reflexivity.
  - reflexivity.
Defined.

(** ** The binary sensor *)

(** X20: when the first poll cycle of a coordinator that holds no data
    returns the empty mapping, [_async_update_data] returns [None] and
    [self.data] stays [None]; [is_on] on that raises [AttributeError]. *)
Theorem binary_sensor_after_empty_first_cycle
    (net : server) (now name : string) (c : coordinator) :
  data c = JNull ->
  fst (_fetch_all_data net (snd (log DEBUG "Fetching PWN data" [] (api c)))) =
    Return (JObj []) ->
  fst (_async_update_data net now c) = Updated JNull /\
  data (snd (_async_update_data net now c)) = JNull /\
  forall w, is_on name (data (snd (_async_update_data net now c))) w =
            (Raise AttributeError, w).
Proof.
  intros Hnone Hempty. unfold _async_update_data. remember (api c) as w0.
  revert Hempty. run. intros Hempty.
  destruct (_fetch_all_data net _) as [[fetched|e] w2]; cbn [fst] in Hempty;
    [|discriminate Hempty].
  injection Hempty as ->. cbn [truthy]. run. rewrite Hnone.
  repeat split.
Qed.

Lemma binary_sensor_after_empty_first_cycle_witness :
  let net := scripted (poll_script (JObj [])) in
  fst (_async_update_data net noon new_coordinator) = Updated JNull /\
  is_on "Open invoices"
        (data (snd (_async_update_data net noon new_coordinator))) fresh =
    (Raise AttributeError, fresh).
Proof.
  intros net.
  destruct (binary_sensor_after_empty_first_cycle net noon "Open invoices"
              new_coordinator) as (H1 & _ & H3).
  - reflexivity.
  - vm_compute. reflexivity.
  - split; [exact H1|apply H3].
Defined.

(** X21: [is_on] looks for [numberOfOpenItems] directly under
    [data["invoices"]]: with a non-empty invoices object it is that
    count compared with 0, and [False] when the key is not there, as it is
    for a count that lies under [invoicesSummary]; it logs nothing and
    changes nothing. *)
Theorem is_on_reads_top_level_count
    (name : string) (data : list (string * json)) (inv : list (string * json))
    (w : world) :
  dict_get data DATA_INVOICES = Some (JObj inv) ->
  truthy (JObj inv) = true ->
  (forall n, dict_get inv "numberOfOpenItems" = Some (JInt n) ->
             is_on name (JObj data) w = (Return (0 <? n), w)) /\
  (dict_get inv "numberOfOpenItems" = None ->
   is_on name (JObj data) w = (Return false, w)).
Proof.
  intros Hinv Hne. unfold is_on, py_get_default. run. rewrite Hinv.
  destruct inv as [|x inv']; [discriminate Hne|]. cbn [truthy]. run.
  split; [intros n Hn|intros Hn]; rewrite Hn; reflexivity.
Qed.

Lemma is_on_reads_top_level_count_witness :
  is_on "Open invoices"
        (JObj [("invoices",
                JObj [("invoicesSummary", JObj [("numberOfOpenItems", JInt 2)])])])
        fresh =
    (Return false, fresh).
Proof.
  apply (is_on_reads_top_level_count "Open invoices"
           [("invoices",
             JObj [("invoicesSummary", JObj [("numberOfOpenItems", JInt 2)])])]
           [("invoicesSummary", JObj [("numberOfOpenItems", JInt 2)])] fresh).
  - reflexivity.
  - reflexivity.
  - reflexivity.
Defined.
